(** * State-machine and strategy-selection core of the design-pattern catalogue

    A shallow embedding of [src/include/behavioral/state.h] (the character
    state machine) and [src/include/behavioral/strategy.h] (the AI behaviour
    selector), with the properties of the specification stated over it.

    C++ [float] is IEEE-754 binary32; it is modelled bit-exactly with the
    standard library's [spec_float] at precision 24 and maximal exponent 128
    (round to nearest even, no extended intermediate precision, no fused
    multiply-add).  C++ [int] is a 32-bit signed integer modelled in [Z];
    signed overflow and out-of-range float-to-int conversions are undefined
    behaviour and surface as the [Undefined] outcome. *)

From Stdlib Require Import ZArith Bool Lia.
From Stdlib Require Import Floats.SpecFloat.
From stdpp Require Import gmap strings list.

Open Scope Z_scope.

(** ** Binary32 arithmetic *)

Module F32.

Definition prec : Z := 24.
Definition emax : Z := 128.

Definition f32 : Type := spec_float.

Definition add (a b : f32) : f32 := SFadd prec emax a b.
Definition sub (a b : f32) : f32 := SFsub prec emax a b.
Definition mul (a b : f32) : f32 := SFmul prec emax a b.
Definition div (a b : f32) : f32 := SFdiv prec emax a b.
Definition sqrt (a : f32) : f32 := SFsqrt prec emax a.
Definition neg (a : f32) : f32 := SFopp a.

(** [a < b], [a <= b], [a > b], [a >= b]; all false when an operand is NaN. *)
Definition lt (a b : f32) : bool := SFltb a b.
Definition le (a b : f32) : bool := SFleb a b.
Definition gt (a b : f32) : bool := SFltb b a.
Definition ge (a b : f32) : bool := SFleb b a.

(** Conversion [int -> float] (implicit in mixed expressions, explicit in
    [static_cast<float>]). *)
Definition of_int (z : Z) : f32 := binary_normalize prec emax z 0 false.

(** The literal [n/d] written in decimal with suffix [f]: both [n] and [d]
    are exactly representable wherever this is used, and division rounds
    correctly, so the result is the binary32 number nearest to [n/d]. *)
Definition lit (n d : Z) : f32 := div (of_int n) (of_int d).

Definition zero : f32 := S754_zero false.

Definition int_min : Z := - 2 ^ 31.
Definition int_max : Z := 2 ^ 31 - 1.
Definition in_int (z : Z) : bool := (int_min <=? z) && (z <=? int_max).

(** Truncation toward zero of a finite float. *)
Definition trunc (a : f32) : option Z :=
  match a with
  | S754_zero _ => Some 0
  | S754_finite s m e =>
      let r := Z.shiftl (Zpos m) e in
      Some (if s then - r else r)
  | S754_infinity _ | S754_nan => None
  end.

(** [static_cast<int>(a)]: undefined ([None]) when the truncated value does
    not fit in [int]. *)
Definition to_int (a : f32) : option Z :=
  match trunc a with
  | Some z => if in_int z then Some z else None
  | None => None
  end.

End F32.

Import F32.

(** ** Outcomes of a call *)

Inductive result (A : Type) : Type :=
| Ok (a : A)
| Undefined
| OutOfFuel.
Arguments Ok {A} a.
Arguments Undefined {A}.
Arguments OutOfFuel {A}.

Definition bind {A B : Type} (r : result A) (k : A -> result B) : result B :=
  match r with
  | Ok a => k a
  | Undefined => Undefined
  | OutOfFuel => OutOfFuel
  end.

Notation "'do' a <- r ; k" := (bind r (fun a => k))
  (at level 10, a name, r at level 100, k at level 200).

(** ** The character state machine ([state.h]) *)

Module State.

(** The five concrete [CharacterState] classes with their mutable private
    members.  The constant members are the definitions below. *)
Inductive CharacterState : Type :=
| IdleState
| WalkingState
| JumpingState
| AttackingState (attackTimer : f32)
| CastingState (castTimer : f32).

Definition walkSpeed : f32 := of_int 100.
Definition jumpForce : f32 := of_int 300.
Definition gravity : f32 := of_int (-500).
Definition attackDuration : f32 := lit 1 2.
Definition castDuration : f32 := of_int 1.
Definition manaCost : Z := 10.

(** [StateCharacter]; a [unique_ptr] is an [option], [nullptr] being [None]. *)
Record StateCharacter : Type := mkStateCharacter {
  currentState : option CharacterState;
  states : gmap string (option CharacterState);
  name : string;
  x : f32;
  y : f32;
  health : Z;
  maxHealth : Z;
  moveSpeed : f32;
  isGrounded : bool;
  jumpVelocity : f32;
  mana : Z;
  maxMana : Z
}.

Definition with_currentState (s : option CharacterState) (c : StateCharacter) :=
  mkStateCharacter s (states c) (name c) (x c) (y c) (health c) (maxHealth c)
    (moveSpeed c) (isGrounded c) (jumpVelocity c) (mana c) (maxMana c).

Definition with_states (m : gmap string (option CharacterState)) (c : StateCharacter) :=
  mkStateCharacter (currentState c) m (name c) (x c) (y c) (health c) (maxHealth c)
    (moveSpeed c) (isGrounded c) (jumpVelocity c) (mana c) (maxMana c).

Definition setPosition (newX newY : f32) (c : StateCharacter) :=
  mkStateCharacter (currentState c) (states c) (name c) newX newY (health c)
    (maxHealth c) (moveSpeed c) (isGrounded c) (jumpVelocity c) (mana c) (maxMana c).

Definition move (deltaX deltaY : f32) (c : StateCharacter) :=
  setPosition (add (x c) deltaX) (add (y c) deltaY) c.

Definition setMoveSpeed (speed : f32) (c : StateCharacter) :=
  mkStateCharacter (currentState c) (states c) (name c) (x c) (y c) (health c)
    (maxHealth c) speed (isGrounded c) (jumpVelocity c) (mana c) (maxMana c).

Definition setGrounded (grounded : bool) (c : StateCharacter) :=
  mkStateCharacter (currentState c) (states c) (name c) (x c) (y c) (health c)
    (maxHealth c) (moveSpeed c) grounded (jumpVelocity c) (mana c) (maxMana c).

Definition setJumpVelocity (velocity : f32) (c : StateCharacter) :=
  mkStateCharacter (currentState c) (states c) (name c) (x c) (y c) (health c)
    (maxHealth c) (moveSpeed c) (isGrounded c) velocity (mana c) (maxMana c).

Definition setMana (mp : Z) (c : StateCharacter) :=
  mkStateCharacter (currentState c) (states c) (name c) (x c) (y c) (health c)
    (maxHealth c) (moveSpeed c) (isGrounded c) (jumpVelocity c)
    (Z.max 0 (Z.min (maxMana c) mp)) (maxMana c).

Definition getStateName (s : CharacterState) : string :=
  match s with
  | IdleState => "idle"
  | WalkingState => "walking"
  | JumpingState => "jumping"
  | AttackingState _ => "attacking"
  | CastingState _ => "casting"
  end.

Definition getCurrentStateName (c : StateCharacter) : string :=
  match currentState c with
  | Some s => getStateName s
  | None => "无状态"
  end.

Definition canTransitionTo (s : CharacterState) (newState : string) : bool :=
  match s with
  | IdleState =>
      String.eqb newState "walking" || String.eqb newState "jumping"
      || String.eqb newState "attacking" || String.eqb newState "casting"
  | WalkingState =>
      String.eqb newState "idle" || String.eqb newState "jumping"
      || String.eqb newState "attacking"
  | JumpingState => String.eqb newState "idle" || String.eqb newState "attacking"
  | AttackingState _ => String.eqb newState "idle" || String.eqb newState "jumping"
  | CastingState _ => String.eqb newState "idle" || String.eqb newState "walking"
  end.

(** [StateFactory::createState]; member initialisers give zeroed timers. *)
Definition createState (stateName : string) : option CharacterState :=
  if String.eqb stateName "idle" then Some IdleState
  else if String.eqb stateName "walking" then Some WalkingState
  else if String.eqb stateName "jumping" then Some JumpingState
  else if String.eqb stateName "attacking" then Some (AttackingState zero)
  else if String.eqb stateName "casting" then Some (CastingState zero)
  else None.

(** [createStateInstance] and [initializeStates]; the header defines both
    out of class under the name [GameCharacter], the same class. *)
Definition createStateInstance (stateName : string) (c : StateCharacter) :=
  with_states (<[stateName := createState stateName]> (states c)) c.

Definition initializeStates (c : StateCharacter) : StateCharacter :=
  createStateInstance "casting"
    (createStateInstance "attacking"
      (createStateInstance "jumping"
        (createStateInstance "walking"
          (createStateInstance "idle" c)))).

(** [onExit] of the active state. *)
Definition onExit (c : StateCharacter) : StateCharacter :=
  match currentState c with
  | Some WalkingState => setMoveSpeed zero c
  | _ => c
  end.

(** [onEnter] of the active state.  [CastingState::onEnter] re-enters
    [setState]; the callee is the parameter [setState_]. *)
Definition onEnter (setState_ : string -> StateCharacter -> result StateCharacter)
    (c : StateCharacter) : result StateCharacter :=
  match currentState c with
  | None => Undefined
  | Some IdleState => Ok (setMoveSpeed zero c)
  | Some WalkingState => Ok (setMoveSpeed walkSpeed c)
  | Some JumpingState => Ok (setJumpVelocity jumpForce (setGrounded false c))
  | Some (AttackingState _) =>
      Ok (setMoveSpeed zero (with_currentState (Some (AttackingState zero)) c))
  | Some (CastingState _) =>
      let c1 := setMoveSpeed zero (with_currentState (Some (CastingState zero)) c) in
      if mana c1 <? manaCost then setState_ "idle" c1 else Ok c1
  end.

(** [StateCharacter::setState].  [fuel] bounds the nesting of calls
    ([setState] -> [onEnter] -> [setState]). *)
Fixpoint setState (fuel : nat) (stateName : string) (c : StateCharacter)
    : result StateCharacter :=
  match fuel with
  | O => OutOfFuel
  | S fuel' =>
      match states c !! stateName with
      | None => Ok c
      | Some slot =>
          if match currentState c with
             | None => true
             | Some s => canTransitionTo s stateName
             end
          then
            let c1 := onExit c in
            let c2 := with_states (<[stateName := None]> (states c1))
                        (with_currentState slot c1) in
            do c3 <- onEnter (setState fuel') c2;
            Ok (createStateInstance stateName c3)
          else Ok c
      end
  end.

(** [handleInput]: the active state's handler, selected by dynamic dispatch. *)
Definition handleInput (fuel : nat) (inputCode : Z) (c : StateCharacter)
    : result StateCharacter :=
  match currentState c with
  | None => Ok c
  | Some IdleState =>
      if (inputCode =? 65) || (inputCode =? 68) then setState fuel "walking" c
      else if inputCode =? 32 then
        if isGrounded c then setState fuel "jumping" c else Ok c
      else if inputCode =? 74 then setState fuel "attacking" c
      else if inputCode =? 75 then
        if 10 <=? mana c then setState fuel "casting" c else Ok c
      else Ok c
  | Some WalkingState =>
      if inputCode =? 65 then Ok (move (mul (neg walkSpeed) (lit 16 1000)) zero c)
      else if inputCode =? 68 then Ok (move (mul walkSpeed (lit 16 1000)) zero c)
      else if inputCode =? 32 then
        if isGrounded c then setState fuel "jumping" c else Ok c
      else if inputCode =? 74 then setState fuel "attacking" c
      else if inputCode =? 0 then setState fuel "idle" c
      else Ok c
  | Some JumpingState =>
      if inputCode =? 65 then Ok (move (mul (of_int (-50)) (lit 16 1000)) zero c)
      else if inputCode =? 68 then Ok (move (mul (of_int 50) (lit 16 1000)) zero c)
      else if inputCode =? 74 then setState fuel "attacking" c
      else Ok c
  | Some (AttackingState _) => Ok c
  | Some (CastingState _) =>
      if (inputCode =? 65) || (inputCode =? 68) then setState fuel "walking" c
      else Ok c
  end.

(** [CastingState::castSpell]. *)
Definition castSpell (c : StateCharacter) : result StateCharacter :=
  if in_int (mana c - manaCost) then Ok (setMana (mana c - manaCost) c)
  else Undefined.

(** [update]: the active state's time step. *)
Definition update (fuel : nat) (deltaTime : f32) (c : StateCharacter)
    : result StateCharacter :=
  match currentState c with
  | None => Ok c
  | Some IdleState =>
      let currentMana := mana c in
      if currentMana <? 50 then
        match to_int (mul (of_int 5) deltaTime) with
        | Some gain =>
            if in_int (currentMana + gain) then Ok (setMana (currentMana + gain) c)
            else Undefined
        | None => Undefined
        end
      else Ok c
  | Some WalkingState => Ok c
  | Some JumpingState =>
      let currentVelocity := add (jumpVelocity c) (mul gravity deltaTime) in
      let c1 := setJumpVelocity currentVelocity c in
      let c2 := move zero (mul currentVelocity deltaTime) c1 in
      if le (y c2) zero then
        setState fuel "idle"
          (setJumpVelocity zero (setGrounded true (setPosition (x c2) zero c2)))
      else Ok c2
  | Some (AttackingState attackTimer) =>
      let attackTimer' := add attackTimer deltaTime in
      let c1 := with_currentState (Some (AttackingState attackTimer')) c in
      if ge attackTimer' attackDuration then
        if isGrounded c1 then setState fuel "idle" c1
        else setState fuel "jumping" c1
      else Ok c1
  | Some (CastingState castTimer) =>
      let castTimer' := add castTimer deltaTime in
      let c1 := with_currentState (Some (CastingState castTimer')) c in
      if ge castTimer' castDuration then
        do c2 <- castSpell c1;
        setState fuel "idle" c2
      else Ok c1
  end.

(** The constructor: member initialisers, [initializeStates], then
    [setState("idle")]. *)
Definition newStateCharacter (fuel : nat) (charName : string) : result StateCharacter :=
  setState fuel "idle"
    (initializeStates
      (mkStateCharacter None ∅ charName zero zero 100 100 (of_int 100) true zero 50 50)).

(** Successive [update] calls, one per frame. *)
Fixpoint run_updates (fuel : nat) (dts : list f32) (c : StateCharacter)
    : result StateCharacter :=
  match dts with
  | [] => Ok c
  | dt :: rest => do c' <- update fuel dt c; run_updates fuel rest c'
  end.

(** The registry as [initializeStates] builds it. *)
Definition registry : gmap string (option CharacterState) :=
  <["casting" := Some (CastingState zero)]>
    (<["attacking" := Some (AttackingState zero)]>
      (<["jumping" := Some JumpingState]>
        (<["walking" := Some WalkingState]>
          (<["idle" := Some IdleState]> ∅)))).

(** Between calls every registered name holds a fresh instance. *)
Definition wf (c : StateCharacter) : Prop := states c = registry.

Definition registered (stateName : string) : bool :=
  String.eqb stateName "idle" || String.eqb stateName "walking"
  || String.eqb stateName "jumping" || String.eqb stateName "attacking"
  || String.eqb stateName "casting".

(** The enter-hook with the nested call of [CastingState::onEnter] resolved:
    a cast that cannot be paid for is left again for idle at once. *)
Definition entered (c : StateCharacter) : StateCharacter :=
  match currentState c with
  | None => c
  | Some IdleState => setMoveSpeed zero c
  | Some WalkingState => setMoveSpeed walkSpeed c
  | Some JumpingState => setJumpVelocity jumpForce (setGrounded false c)
  | Some (AttackingState _) =>
      setMoveSpeed zero (with_currentState (Some (AttackingState zero)) c)
  | Some (CastingState _) =>
      let c1 := setMoveSpeed zero (with_currentState (Some (CastingState zero)) c) in
      if mana c1 <? manaCost
      then setMoveSpeed zero (with_currentState (Some IdleState) c1)
      else c1
  end.

(** Exit-hook of the old state, swap, enter-hook of the new state. *)
Definition transition (stateName : string) (c : StateCharacter) : StateCharacter :=
  entered (with_currentState (createState stateName) (onExit c)).

(** The condition under which [setState] goes ahead. *)
Definition accepts (stateName : string) (c : StateCharacter) : bool :=
  registered stateName
  && match currentState c with
     | None => true
     | Some s => canTransitionTo s stateName
     end.

(** The guard of [setState] on the active state alone. *)
Definition may_leave (stateName : string) (c : StateCharacter) : Prop :=
  match currentState c with
  | None => True
  | Some s => canTransitionTo s stateName = true
  end.

(** Direct integration of a jump, following the specification's words:
    [v' = v + g*dt], [y' = y + v'*dt], until [y' <= 0]. *)
Inductive JumpPhase : Type :=
| InAir (y v : f32)
| OnGround (steps : nat).

Fixpoint integrate (y0 v0 : f32) (dts : list f32) : JumpPhase :=
  match dts with
  | [] => InAir y0 v0
  | dt :: rest =>
      let v1 := add v0 (mul gravity dt) in
      let y1 := add y0 (mul v1 dt) in
      if le y1 zero then OnGround 1
      else match integrate y1 v1 rest with
           | InAir y2 v2 => InAir y2 v2
           | OnGround n => OnGround (S n)
           end
  end.

(** Standing on the ground after a jump. *)
Definition landed (c : StateCharacter) : Prop :=
  currentState c = Some IdleState /\ y c = zero /\ jumpVelocity c = zero
  /\ isGrounded c = true.

(** A freshly constructed character, and one whose mana has been spent
    down to 5 and to 40. *)
Definition player : StateCharacter :=
  mkStateCharacter (Some IdleState) registry "player" zero zero 100 100 zero true
    zero 50 50.

Definition player_mana5 : StateCharacter := setMana 5 player.
Definition player_mana40 : StateCharacter := setMana 40 player.

(** The character in mid-air, 25 above ground and rising at 50, as after
    a jump followed by [update(0.5f)]. *)
Definition player_airborne : StateCharacter :=
  mkStateCharacter (Some JumpingState) registry "player" zero (of_int 25) 100 100
    zero false (of_int 50) 50 50.

(** The character attacking in mid-air while falling at 200 per time unit,
    its attack 0.49 time units old. *)
Definition player_air_attack : StateCharacter :=
  mkStateCharacter (Some (AttackingState (lit 49 100))) registry "player" zero
    (of_int 25) 100 100 zero false (of_int (-200)) 50 50.

End State.

(** ** The AI behaviour selector ([strategy.h]) *)

Module Strategy.

(** The concrete [AIBehavior] classes with their mutable private members.
    [HardAI], which only forwards to a controller it points to, is not part
    of the controller's own behaviours and is left out. *)
Inductive AIBehavior : Type :=
| PatrolBehavior (waypoints : list (f32 * f32))
| ChaseBehavior
| AttackBehavior (lastAttackTime : f32)
| FleeBehavior
| DefendBehavior (defendTimer : f32)
| BerserkBehavior
| EasyAI.

Definition attackCooldown : f32 := of_int 1.
Definition defendDuration : f32 := of_int 2.
Definition behaviorUpdateInterval : f32 := of_int 1.

Record AIEnemy : Type := mkAIEnemy {
  name : string;
  x : f32;
  y : f32;
  health : Z;
  maxHealth : Z;
  speed : f32;
  detectionRange : f32;
  attackRange : f32;
  currentBehavior : option AIBehavior;
  targetX : f32;
  targetY : f32;
  hasTarget : bool
}.

Definition newAIEnemy (enemyName : string) (posX posY : f32) : AIEnemy :=
  mkAIEnemy enemyName posX posY 100 100 (of_int 50) (of_int 100) (of_int 30)
    None zero zero false.

Definition setBehavior (behavior : option AIBehavior) (e : AIEnemy) : AIEnemy :=
  mkAIEnemy (name e) (x e) (y e) (health e) (maxHealth e) (speed e)
    (detectionRange e) (attackRange e) behavior (targetX e) (targetY e)
    (hasTarget e).

Definition setPosition (newX newY : f32) (e : AIEnemy) : AIEnemy :=
  mkAIEnemy (name e) newX newY (health e) (maxHealth e) (speed e)
    (detectionRange e) (attackRange e) (currentBehavior e) (targetX e)
    (targetY e) (hasTarget e).

Definition setSpeed (newSpeed : f32) (e : AIEnemy) : AIEnemy :=
  mkAIEnemy (name e) (x e) (y e) (health e) (maxHealth e) newSpeed
    (detectionRange e) (attackRange e) (currentBehavior e) (targetX e)
    (targetY e) (hasTarget e).

Definition setHealth (hp : Z) (e : AIEnemy) : AIEnemy :=
  mkAIEnemy (name e) (x e) (y e) hp (maxHealth e) (speed e)
    (detectionRange e) (attackRange e) (currentBehavior e) (targetX e)
    (targetY e) (hasTarget e).

(** [takeDamage] and [heal]; the [int] sum or difference is assumed to fit. *)
Definition takeDamage (damage : Z) (e : AIEnemy) : AIEnemy :=
  setHealth (Z.max 0 (health e - damage)) e.

Definition heal (amount : Z) (e : AIEnemy) : AIEnemy :=
  setHealth (Z.min (maxHealth e) (health e + amount)) e.

Definition setTarget (tX tY : f32) (e : AIEnemy) : AIEnemy :=
  mkAIEnemy (name e) (x e) (y e) (health e) (maxHealth e) (speed e)
    (detectionRange e) (attackRange e) (currentBehavior e) tX tY true.

Definition clearTarget (e : AIEnemy) : AIEnemy :=
  mkAIEnemy (name e) (x e) (y e) (health e) (maxHealth e) (speed e)
    (detectionRange e) (attackRange e) (currentBehavior e) (targetX e)
    (targetY e) false.

Definition moveTowards (tX tY deltaTime : f32) (e : AIEnemy) : AIEnemy :=
  let dx := sub tX (x e) in
  let dy := sub tY (y e) in
  let distance := sqrt (add (mul dx dx) (mul dy dy)) in
  if gt distance (of_int 1) then
    let dx := div dx distance in
    let dy := div dy distance in
    setPosition (add (x e) (mul (mul dx (speed e)) deltaTime))
                (add (y e) (mul (mul dy (speed e)) deltaTime)) e
  else e.

(** [size_t] arithmetic is modulo [2^64]. *)
Definition size_max : Z := 2 ^ 64.

(** [AIEnemy::patrol].  Its function-local [static size_t currentWaypoint]
    is one variable for the whole program; it is threaded through as the
    first component of the state. *)
Definition patrol (waypoints : list (f32 * f32)) (deltaTime : f32)
    (w : Z * AIEnemy) : Z * AIEnemy :=
  let '(currentWaypoint, e) := w in
  match waypoints with
  | [] => w
  | _ :: _ =>
      match waypoints !! Z.to_nat (currentWaypoint mod Z.of_nat (length waypoints)) with
      | Some target =>
          let e1 := moveTowards (fst target) (snd target) deltaTime e in
          let dx := sub (fst target) (x e1) in
          let dy := sub (snd target) (y e1) in
          if lt (add (mul dx dx) (mul dy dy)) (of_int 25)
          then ((currentWaypoint + 1) mod size_max, e1)
          else (currentWaypoint, e1)
      | None => w
      end
  end.

(** [AIEnemy::attack] has an empty body. *)
Definition attack (e : AIEnemy) : AIEnemy := e.

Definition flee (fromX fromY deltaTime : f32) (e : AIEnemy) : AIEnemy :=
  let dx := sub (x e) fromX in
  let dy := sub (y e) fromY in
  let distance := sqrt (add (mul dx dx) (mul dy dy)) in
  if gt distance zero then
    let dx := div dx distance in
    let dy := div dy distance in
    setPosition
      (add (x e) (mul (mul (mul dx (speed e)) (lit 3 2)) deltaTime))
      (add (y e) (mul (mul (mul dy (speed e)) (lit 3 2)) deltaTime)) e
  else e.

Definition getDistanceToTarget (e : AIEnemy) : f32 :=
  if hasTarget e then
    let dx := sub (targetX e) (x e) in
    let dy := sub (targetY e) (y e) in
    sqrt (add (mul dx dx) (mul dy dy))
  else of_int (-1).

Definition getBehaviorName (b : AIBehavior) : string :=
  match b with
  | PatrolBehavior _ => "巡逻"
  | ChaseBehavior => "追击"
  | AttackBehavior _ => "攻击"
  | FleeBehavior => "逃跑"
  | DefendBehavior _ => "防御"
  | BerserkBehavior => "狂暴"
  | EasyAI => "简单AI"
  end.

Definition getCurrentBehaviorName (e : AIEnemy) : string :=
  match currentBehavior e with
  | Some b => getBehaviorName b
  | None => "无行为"
  end.

(** [static_cast<float>(health) / maxHealth]. *)
Definition healthPercent (e : AIEnemy) : f32 :=
  div (of_int (health e)) (of_int (maxHealth e)).

Definition canExecute (b : AIBehavior) (e : AIEnemy) : bool :=
  match b with
  | PatrolBehavior _ => 0 <? health e
  | ChaseBehavior =>
      (0 <? health e) && hasTarget e
      && gt (getDistanceToTarget e) (attackRange e)
  | AttackBehavior _ =>
      (0 <? health e) && hasTarget e
      && le (getDistanceToTarget e) (attackRange e)
  | FleeBehavior => (0 <? health e) && lt (healthPercent e) (lit 3 10)
  | DefendBehavior _ =>
      (0 <? health e) && ge (healthPercent e) (lit 3 10)
      && le (healthPercent e) (lit 6 10)
  | BerserkBehavior => (0 <? health e) && lt (healthPercent e) (lit 2 10)
  | EasyAI => 0 <? health e
  end.

(** [execute] of the enemy's active behaviour [b]; the behaviour's own
    timers are written back into the enemy's [currentBehavior]. *)
Definition execute (b : AIBehavior) (deltaTime : f32) (w : Z * AIEnemy)
    : Z * AIEnemy :=
  let '(currentWaypoint, e) := w in
  match b with
  | PatrolBehavior waypoints => patrol waypoints deltaTime w
  | ChaseBehavior =>
      if hasTarget e
      then (currentWaypoint, moveTowards (targetX e) (targetY e) deltaTime e)
      else w
  | AttackBehavior lastAttackTime =>
      let lastAttackTime := add lastAttackTime deltaTime in
      if ge lastAttackTime attackCooldown
      then (currentWaypoint, setBehavior (Some (AttackBehavior zero)) (attack e))
      else (currentWaypoint, setBehavior (Some (AttackBehavior lastAttackTime)) e)
  | FleeBehavior =>
      if hasTarget e
      then (currentWaypoint, flee (targetX e) (targetY e) deltaTime e)
      else w
  | DefendBehavior defendTimer =>
      let defendTimer := add defendTimer deltaTime in
      let e1 := setSpeed (mul (speed e) (lit 1 2)) e in
      if ge defendTimer defendDuration
      then (currentWaypoint, setBehavior (Some (DefendBehavior zero)) e1)
      else (currentWaypoint, setBehavior (Some (DefendBehavior defendTimer)) e1)
  | BerserkBehavior =>
      let e1 := setSpeed (mul (speed e) (lit 3 2)) e in
      if hasTarget e1 then
        let e2 := moveTowards (targetX e1) (targetY e1) deltaTime e1 in
        if le (getDistanceToTarget e2) (attackRange e2)
        then (currentWaypoint, attack e2)
        else (currentWaypoint, e2)
      else (currentWaypoint, e1)
  | EasyAI =>
      patrol [(of_int 0, of_int 0); (of_int 50, of_int 0);
              (of_int 50, of_int 50); (of_int 0, of_int 50)]
        (mul deltaTime (lit 1 2)) w
  end.

(** [AIEnemy::update]. *)
Definition AIEnemy_update (deltaTime : f32) (w : Z * AIEnemy) : Z * AIEnemy :=
  match currentBehavior (snd w) with
  | Some b => if canExecute b (snd w) then execute b deltaTime w else w
  | None => w
  end.

(** [StrategyAIController]; the enemy it points to is held in place. *)
Record StrategyAIController : Type := mkStrategyAIController {
  controlledEnemy : AIEnemy;
  availableBehaviors : list AIBehavior;
  timeSinceLastUpdate : f32
}.

Definition defaultWaypoints : list (f32 * f32) :=
  [(of_int 0, of_int 0); (of_int 100, of_int 0);
   (of_int 100, of_int 100); (of_int 0, of_int 100)].

Definition with_enemy (e : AIEnemy) (c : StrategyAIController) :=
  mkStrategyAIController e (availableBehaviors c) (timeSinceLastUpdate c).

Definition with_time (t : f32) (c : StrategyAIController) :=
  mkStrategyAIController (controlledEnemy c) (availableBehaviors c) t.

(** The constructor, which runs [initializeBehaviors]. *)
Definition newStrategyAIController (enemy : AIEnemy) : StrategyAIController :=
  mkStrategyAIController
    (setBehavior (Some (PatrolBehavior defaultWaypoints)) enemy)
    [PatrolBehavior defaultWaypoints; ChaseBehavior; AttackBehavior zero;
     FleeBehavior; DefendBehavior zero; BerserkBehavior]
    zero.

(** The loop of [selectBestBehavior] over the remaining candidates; a
    [break] ends it, every other path goes on to the next candidate. *)
Fixpoint selectLoop (candidates : list AIBehavior) (e : AIEnemy) : AIEnemy :=
  match candidates with
  | [] => e
  | behavior :: rest =>
      if canExecute behavior e then
        let currentBehavior := getCurrentBehaviorName e in
        let newBehavior := getBehaviorName behavior in
        if negb (String.eqb currentBehavior newBehavior) then
          if String.eqb newBehavior "逃跑" then setBehavior (Some FleeBehavior) e
          else if String.eqb newBehavior "狂暴" then
            setBehavior (Some BerserkBehavior) e
          else if String.eqb newBehavior "攻击" then
            setBehavior (Some (AttackBehavior zero)) e
          else if String.eqb newBehavior "防御" then
            setBehavior (Some (DefendBehavior zero)) e
          else if String.eqb newBehavior "追击" then
            setBehavior (Some ChaseBehavior) e
          else selectLoop rest e
        else selectLoop rest e
      else selectLoop rest e
  end.

Definition selectBestBehavior (c : StrategyAIController) : StrategyAIController :=
  with_enemy (selectLoop (availableBehaviors c) (controlledEnemy c)) c.

(** [StrategyAIController::update]. *)
Definition update (deltaTime : f32) (w : Z * StrategyAIController)
    : Z * StrategyAIController :=
  let '(currentWaypoint, c) := w in
  let c1 := with_time (add (timeSinceLastUpdate c) deltaTime) c in
  let c2 :=
    if ge (timeSinceLastUpdate c1) behaviorUpdateInterval
    then with_time zero (selectBestBehavior c1)
    else c1 in
  let '(currentWaypoint', e) :=
    AIEnemy_update deltaTime (currentWaypoint, controlledEnemy c2) in
  (currentWaypoint', with_enemy e c2).

Definition forceBehavior (behaviorName : string) (c : StrategyAIController)
    : StrategyAIController :=
  if String.eqb behaviorName "巡逻" then
    with_enemy (setBehavior (Some (PatrolBehavior defaultWaypoints))
                  (controlledEnemy c)) c
  else if String.eqb behaviorName "追击" then
    with_enemy (setBehavior (Some ChaseBehavior) (controlledEnemy c)) c
  else if String.eqb behaviorName "攻击" then
    with_enemy (setBehavior (Some (AttackBehavior zero)) (controlledEnemy c)) c
  else if String.eqb behaviorName "逃跑" then
    with_enemy (setBehavior (Some FleeBehavior) (controlledEnemy c)) c
  else if String.eqb behaviorName "防御" then
    with_enemy (setBehavior (Some (DefendBehavior zero)) (controlledEnemy c)) c
  else if String.eqb behaviorName "狂暴" then
    with_enemy (setBehavior (Some BerserkBehavior) (controlledEnemy c)) c
  else c.

(** [BattleManager::updateBattle]: every controller in turn, all of them
    sharing the one patrol counter. *)
Fixpoint updateBattle (deltaTime : f32) (currentWaypoint : Z)
    (aiControllers : list StrategyAIController)
    : Z * list StrategyAIController :=
  match aiControllers with
  | [] => (currentWaypoint, [])
  | c :: rest =>
      let '(currentWaypoint1, c') := update deltaTime (currentWaypoint, c) in
      let '(currentWaypoint2, rest') := updateBattle deltaTime currentWaypoint1 rest in
      (currentWaypoint2, c' :: rest')
  end.

(** Successive [update] calls on one controller. *)
Fixpoint run_updates (dts : list f32) (w : Z * StrategyAIController)
    : Z * StrategyAIController :=
  match dts with
  | [] => w
  | dt :: rest => run_updates rest (update dt w)
  end.

(** The part of [update] before the enemy is updated: accumulate, and
    re-select when the interval is reached. *)
Definition reevaluate (deltaTime : f32) (c : StrategyAIController)
    : StrategyAIController :=
  let c1 := with_time (add (timeSinceLastUpdate c) deltaTime) c in
  if ge (timeSinceLastUpdate c1) behaviorUpdateInterval
  then with_time zero (selectBestBehavior c1)
  else c1.

(** [execute] of whatever behaviour is active, and a run of such calls. *)
Definition execute_current (deltaTime : f32) (w : Z * AIEnemy) : Z * AIEnemy :=
  match currentBehavior (snd w) with
  | Some b => execute b deltaTime w
  | None => w
  end.

Fixpoint run_execute (dts : list f32) (w : Z * AIEnemy) : Z * AIEnemy :=
  match dts with
  | [] => w
  | dt :: rest => run_execute rest (execute_current dt w)
  end.

(** A speed halved [n] times over. *)
Definition halved (n : nat) (s : f32) : f32 :=
  Nat.iter n (fun v => mul v (lit 1 2)) s.

(** The defend timer after the steps [dts]. *)
Fixpoint defend_timer (t : f32) (dts : list f32) : f32 :=
  match dts with
  | [] => t
  | dt :: rest =>
      defend_timer (if ge (add t dt) defendDuration then zero else add t dt) rest
  end.

(** No step of [dts] brings the defend timer up to the defend duration. *)
Fixpoint within_duration (t : f32) (dts : list f32) : bool :=
  match dts with
  | [] => true
  | dt :: rest =>
      negb (ge (add t dt) defendDuration) && within_duration (add t dt) rest
  end.

(** The timers a behaviour object carries. *)
Definition timers (b : AIBehavior) : list f32 :=
  match b with
  | AttackBehavior lastAttackTime => [lastAttackTime]
  | DefendBehavior defendTimer => [defendTimer]
  | _ => []
  end.

(** The behaviours that walk the waypoint loop. *)
Definition patrols (b : option AIBehavior) : bool :=
  match b with
  | Some (PatrolBehavior _) | Some EasyAI => true
  | _ => false
  end.

(** Selection as the specification words it: the candidates in the order
    Flee, Berserk, Attack, Defend, Chase, Patrol, and the first of them that
    is eligible and named differently from the active behaviour. *)
Definition priorityOrder : list AIBehavior :=
  [FleeBehavior; BerserkBehavior; AttackBehavior zero; DefendBehavior zero;
   ChaseBehavior; PatrolBehavior defaultWaypoints].

Definition selectByPriority (e : AIEnemy) : AIEnemy :=
  match
    List.find
      (fun b => canExecute b e
                && negb (String.eqb (getCurrentBehaviorName e) (getBehaviorName b)))
      priorityOrder
  with
  | Some b => setBehavior (Some b) e
  | None => e
  end.

(** The eligible candidate that ranks highest in that order, if any. *)
Definition topEligible (e : AIEnemy) : option AIBehavior :=
  List.find (fun b => canExecute b e) priorityOrder.

(** The sentence "whether or not selection ran, [update] always delegates to
    the active behaviour's [execute]", read literally. *)
Definition always_delegates : Prop :=
  forall (currentWaypoint : Z) (c : StrategyAIController) (deltaTime : f32),
  exists b,
    currentBehavior (controlledEnemy (reevaluate deltaTime c)) = Some b
    /\ update deltaTime (currentWaypoint, c)
       = (fst (execute b deltaTime
                 (currentWaypoint, controlledEnemy (reevaluate deltaTime c))),
          with_enemy
            (snd (execute b deltaTime
                    (currentWaypoint, controlledEnemy (reevaluate deltaTime c))))
            (reevaluate deltaTime c)).

(** The sentence "the speed is halved once per defend duration, not more",
    read literally: while the timer has not reached the duration, the speed
    is half of what it was when defending began. *)
Definition halved_once_per_duration : Prop :=
  forall (currentWaypoint : Z) (e : AIEnemy) (dts : list f32),
    currentBehavior e = Some (DefendBehavior zero) ->
    dts <> [] ->
    within_duration zero dts = true ->
    speed (snd (run_execute dts (currentWaypoint, e)))
      = mul (speed e) (lit 1 2).

(** The sentence "after a switch away from and back to Patrol the waypoint
    progress starts fresh", read literally: the patrol step after the switch
    back behaves as it does on the initial counter 0. *)
Definition patrol_progress_starts_fresh : Prop :=
  forall (currentWaypoint : Z) (c : StrategyAIController) (away : string)
         (deltaTime : f32),
    0 <= currentWaypoint < size_max ->
    snd (update deltaTime
           (currentWaypoint, forceBehavior "巡逻" (forceBehavior away c)))
    = snd (update deltaTime (0, forceBehavior "巡逻" (forceBehavior away c))).

(** A behaviour object as [make_unique] leaves it: all timers at 0. *)
Definition fresh (b : AIBehavior) : Prop :=
  Forall (fun t => t = zero) (timers b).

(** *** Scenarios *)

(** A new enemy at the origin under a new controller. *)
Definition grunt : AIEnemy := newAIEnemy "grunt" zero zero.
Definition grunt_ai : StrategyAIController := newStrategyAIController grunt.

(** The same after 85 damage (15 of 100 health left), patrolling, with the
    player sighted at (50, 50), out of attack range. *)
Definition wounded_far : StrategyAIController :=
  with_enemy (setTarget (of_int 50) (of_int 50)
                (takeDamage 85 (controlledEnemy grunt_ai))) grunt_ai.

(** 15 of 100 health left, no target, patrolling; and after fleeing has
    been selected. *)
Definition wounded_alone : StrategyAIController :=
  with_enemy (takeDamage 85 (controlledEnemy grunt_ai)) grunt_ai.
Definition fleeing : StrategyAIController := selectBestBehavior wounded_alone.

(** Half health, the player 10 away, half a time unit into the attack
    cooldown. *)
Definition attacking_hurt : StrategyAIController :=
  with_enemy
    (setBehavior (Some (AttackBehavior (lit 1 2)))
       (setTarget (of_int 10) (of_int 0)
          (takeDamage 50 (controlledEnemy grunt_ai)))) grunt_ai.

(** Full health, forced to defend. *)
Definition defending : StrategyAIController := forceBehavior "防御" grunt_ai.

(** A second enemy 50 to the right, under its own controller. *)
Definition grunt2_ai : StrategyAIController :=
  newStrategyAIController (newAIEnemy "grunt2" (of_int 50) zero).

End Strategy.

(** ** More of the state machine: predicates and the manager classes *)

Module StateMore.
Import State.

(** [StateCharacter::setHealth]. *)
Definition setHealth (hp : Z) (c : StateCharacter) : StateCharacter :=
  mkStateCharacter (currentState c) (states c) (name c) (x c) (y c)
    (Z.max 0 (Z.min (maxHealth c) hp)) (maxHealth c) (moveSpeed c)
    (isGrounded c) (jumpVelocity c) (mana c) (maxMana c).

(** The key codes the [switch] (or [if]) of each state's [handleInput]
    has a case for. *)
Definition handled (s : CharacterState) : list Z :=
  match s with
  | IdleState => [65; 68; 32; 74; 75]
  | WalkingState => [65; 68; 32; 74; 0]
  | JumpingState => [65; 68; 74]
  | AttackingState _ => []
  | CastingState _ => [65; 68]
  end.

(** The name [getCurrentStateName] reports after an accepted
    [setState(stateName)]. *)
Definition arrival (stateName : string) (c : StateCharacter) : string :=
  if String.eqb stateName "casting" && (mana c <? manaCost) then "idle"
  else stateName.

(** Standing states are grounded, the jumping state is not; an attack can
    be either. *)
Definition grounded_ok (c : StateCharacter) : Prop :=
  match currentState c with
  | Some IdleState | Some WalkingState | Some (CastingState _) =>
      isGrounded c = true
  | Some JumpingState => isGrounded c = false
  | Some (AttackingState _) | None => True
  end.

(** The mana pool lies between 0 and its cap, and the cap fits [int]. *)
Definition mana_ok (c : StateCharacter) : Prop :=
  0 <= mana c <= maxMana c /\ maxMana c <= int_max.

(** The idle mana gain of a step is undefined: the product does not convert
    to [int], or the sum overflows. *)
Definition regen_undefined (deltaTime : f32) (c : StateCharacter) : Prop :=
  currentState c = Some IdleState /\ mana c < 50
  /\ match to_int (mul (of_int 5) deltaTime) with
     | Some gain => int_max < mana c + gain
     | None => True
     end.

(** [StateMachineManager]: [managedCharacters] is a vector of raw pointers;
    the characters live in a heap keyed by address.  A pointer to no live
    character is dereferenced with undefined behaviour. *)
Definition addCharacter (character : nat) (managedCharacters : list nat)
    : list nat :=
  managedCharacters ++ [character].

(** [erase(remove(begin, end, character), end)]. *)
Definition removeCharacter (character : nat) (managedCharacters : list nat)
    : list nat :=
  List.filter (fun p => negb (Nat.eqb p character)) managedCharacters.


(** A character walking, one casting half a time unit into the cast, and
    one attacking on the ground. *)
Definition player_walking : StateCharacter := transition "walking" player.
Definition player_casting : StateCharacter :=
  with_currentState (Some (CastingState (lit 1 2))) (transition "casting" player).
Definition player_attacking : StateCharacter := transition "attacking" player.

End StateMore.

(** ** More of the behaviour selector: the loop's choice, the battle manager *)

Module StrategyMore.
Import Strategy.

(** The candidates as [initializeBehaviors] registers them. *)
Definition standardBehaviors : list AIBehavior :=
  [PatrolBehavior defaultWaypoints; ChaseBehavior; AttackBehavior zero;
   FleeBehavior; DefendBehavior zero; BerserkBehavior].

(** The candidates whose name [selectBestBehavior] has a branch for. *)
Definition switchable (b : AIBehavior) : bool :=
  match b with
  | PatrolBehavior _ | EasyAI => false
  | _ => true
  end.

(** The object [make_unique] builds for a candidate's name. *)
Definition renewed (b : AIBehavior) : AIBehavior :=
  match b with
  | AttackBehavior _ => AttackBehavior zero
  | DefendBehavior _ => DefendBehavior zero
  | _ => b
  end.

(** A candidate at which the loop of [selectBestBehavior] switches and
    breaks: eligible, named differently from the active behaviour, and with
    a branch of its own. *)
Definition wins (e : AIEnemy) (b : AIBehavior) : bool :=
  canExecute b e
  && negb (String.eqb (getCurrentBehaviorName e) (getBehaviorName b))
  && switchable b.

(** The names [forceBehavior] has a branch for. *)
Definition known (behaviorName : string) : bool :=
  String.eqb behaviorName "巡逻" || String.eqb behaviorName "追击"
  || String.eqb behaviorName "攻击" || String.eqb behaviorName "逃跑"
  || String.eqb behaviorName "防御" || String.eqb behaviorName "狂暴".

(** A speed multiplied by 1.5 [n] times over. *)
Definition grown (n : nat) (s : f32) : f32 :=
  Nat.iter n (fun v => mul v (lit 3 2)) s.

(** [StrategyAIController::setTarget] and [clearTarget]. *)
Definition controller_setTarget (tX tY : f32) (c : StrategyAIController) :=
  with_enemy (setTarget tX tY (controlledEnemy c)) c.

Definition controller_clearTarget (c : StrategyAIController) :=
  with_enemy (clearTarget (controlledEnemy c)) c.

(** [BattleManager].  [createEnemies] pushes each enemy together with the
    controller that points to it, so the manager's enemies are the
    controllers' enemies, in the same order. *)
Definition setPlayerPosition (pX pY : f32) (aiControllers : list StrategyAIController)
    : list StrategyAIController :=
  map (controller_setTarget pX pY) aiControllers.

Definition damageEnemies (damage : Z) (aiControllers : list StrategyAIController)
    : list StrategyAIController :=
  map (fun c => with_enemy (takeDamage damage (controlledEnemy c)) c)
    aiControllers.

Fixpoint getAliveEnemyCount (aiControllers : list StrategyAIController) : Z :=
  match aiControllers with
  | [] => 0
  | c :: rest =>
      if 0 <? health (controlledEnemy c)
      then 1 + getAliveEnemyCount rest
      else getAliveEnemyCount rest
  end.

(** Health between 0 and its cap. *)
Definition health_ok (e : AIEnemy) : Prop := 0 <= health e <= maxHealth e.

End StrategyMore.

(** ** Properties of the state machine *)

Module StateProofs.
Import State.

(** The decimal literals of the header have the expected bit patterns. *)
Example lit_0_3f : lit 3 10 = S754_finite false 10066330 (-25).
Proof. reflexivity. Qed.
Example lit_0_016f : lit 16 1000 = S754_finite false 8589935 (-29).
Proof. reflexivity. Qed.

Lemma registry_lookup (stateName : string) :
  registry !! stateName =
    if registered stateName then Some (createState stateName) else None.
Proof.
  unfold registry, registered, createState.
  destruct (String.eqb_spec stateName "casting") as [->|Hc]; [reflexivity|].
  destruct (String.eqb_spec stateName "attacking") as [->|Ha]; [reflexivity|].
  destruct (String.eqb_spec stateName "jumping") as [->|Hj]; [reflexivity|].
  destruct (String.eqb_spec stateName "walking") as [->|Hw]; [reflexivity|].
  destruct (String.eqb_spec stateName "idle") as [->|Hi]; [reflexivity|].
  rewrite !lookup_insert_ne by congruence.
  reflexivity.
Qed.

Lemma registered_cases (stateName : string) :
  registered stateName = true ->
  stateName = "idle" \/ stateName = "walking" \/ stateName = "jumping"
  \/ stateName = "attacking" \/ stateName = "casting".
Proof.
  unfold registered. intros H.
  destruct (String.eqb_spec stateName "idle"); [tauto|].
  destruct (String.eqb_spec stateName "walking"); [tauto|].
  destruct (String.eqb_spec stateName "jumping"); [tauto|].
  destruct (String.eqb_spec stateName "attacking"); [tauto|].
  destruct (String.eqb_spec stateName "casting"); [tauto|].
  discriminate H.
Qed.

Ltac registered_name H :=
  destruct (registered_cases _ H) as [->|[->|[->|[->| ->]]]].

Lemma setState_closed_form (k : nat) (stateName : string) (c : StateCharacter) :
  wf c ->
  setState (S (S k)) stateName c =
    Ok (if accepts stateName c then transition stateName c else c).
Proof.
  intros Hwf.
  destruct c as [cur sts nm px py h mh ms g jv mn mm].
  unfold wf in Hwf; cbn in Hwf; subst sts.
  unfold accepts.
  cbn [setState states currentState].
  rewrite registry_lookup.
  destruct (registered stateName) eqn:Hr; [|reflexivity].
  registered_name Hr.
  all: destruct cur as [[| | |t|t]|]; try reflexivity.
  all: cbn; destruct (mn <? manaCost); reflexivity.
Qed.

Lemma wf_transition (stateName : string) (c : StateCharacter) :
  wf c -> wf (transition stateName c).
Proof.
  unfold wf, transition, entered. intros H.
  destruct c as [cur sts nm px py h mh ms g jv mn mm]; cbn in *.
  destruct (createState stateName) as [[| | |t|t]|]; cbn;
    destruct cur as [[| | |t'|t']|]; cbn; try assumption;
    destruct (mn <? manaCost); assumption.
Qed.

Lemma accepts_spec (stateName : string) (c : StateCharacter) :
  wf c ->
  accepts stateName c = true <->
  is_Some (states c !! stateName) /\ may_leave stateName c.
Proof.
  intros Hwf. unfold accepts, may_leave. rewrite Hwf, registry_lookup.
  rewrite andb_true_iff.
  destruct (registered stateName); destruct (currentState c); split;
    intros [H1 H2]; try discriminate; try (split; eauto; fail);
    try (destruct H1 as [? H1]; discriminate H1).
Qed.

(** The constructor yields [player], whatever fuel at least 1 it is given. *)
Lemma newStateCharacter_player (k : nat) :
  newStateCharacter (S k) "player" = Ok player.
Proof. reflexivity. Qed.

Lemma wf_player : wf player.
Proof. reflexivity. Qed.

(** C4: on a character whose registry is intact, [setState(name)] runs
    exit-hook, swap and enter-hook exactly when [name] is a key of the
    registry and the active state (if any) allows the move; in every other
    case it returns the character untouched, timers included, and is never
    an error. *)
Theorem setState_iff_registered_and_allowed
    (k : nat) (stateName : string) (c : StateCharacter) :
  wf c ->
  (is_Some (states c !! stateName) /\ may_leave stateName c ->
     setState (S (S k)) stateName c = Ok (transition stateName c)
     /\ wf (transition stateName c))
  /\ (~ (is_Some (states c !! stateName) /\ may_leave stateName c) ->
     setState (S (S k)) stateName c = Ok c).
Proof.
  intros Hwf.
  pose proof (accepts_spec stateName c Hwf) as Hacc.
  rewrite (setState_closed_form k stateName c Hwf).
  split; intros H.
  - apply Hacc in H. rewrite H. split; [reflexivity|].
    apply wf_transition, Hwf.
  - destruct (accepts stateName c); [|reflexivity].
    exfalso. apply H, Hacc. reflexivity.
Qed.

Lemma setState_iff_registered_and_allowed_witness :
  setState 2 "walking" player = Ok (transition "walking" player)
  /\ setState 2 "walking" (transition "jumping" player)
     = Ok (transition "jumping" player).
Proof.
  split.
  - apply (setState_iff_registered_and_allowed 0 "walking" player wf_player).
    split; [eexists; reflexivity | reflexivity].
  - apply (setState_iff_registered_and_allowed 0 "walking"
             (transition "jumping" player) (wf_transition _ _ wf_player)).
    intros [_ H]. discriminate H.
Defined.

(** The registry invariant holds after every call that returns, and with
    fuel 2 no call runs out of fuel. *)
Lemma setState_keeps_wf (k : nat) (stateName : string) (c : StateCharacter) :
  wf c ->
  exists c', setState (S (S k)) stateName c = Ok c' /\ wf c'.
Proof.
  intros Hwf. rewrite setState_closed_form by exact Hwf.
  eexists; split; [reflexivity|].
  destruct (accepts stateName c); [apply wf_transition|]; exact Hwf.
Qed.

Ltac keeps_wf Hwf :=
  first [ exact Hwf
        | exact I
        | match goal with
          | |- match setState (S (S ?k)) ?n ?c with _ => _ end =>
              let c' := fresh "c" in
              let E := fresh "E" in
              let W := fresh "W" in
              destruct (setState_keeps_wf k n c) as (c' & E & W);
              [exact Hwf | rewrite E; exact W]
          end ].

Lemma handleInput_keeps_wf (k : nat) (inputCode : Z) (c : StateCharacter) :
  wf c ->
  match handleInput (S (S k)) inputCode c with
  | Ok c' => wf c'
  | Undefined | OutOfFuel => False
  end.
Proof.
  intros Hwf. unfold handleInput.
  destruct (currentState c) as [[| | |t|t]|];
    repeat (match goal with
            | |- context [if ?b then _ else _] => destruct b
            end);
    keeps_wf Hwf.
Qed.

Lemma update_keeps_wf (k : nat) (dt : f32) (c : StateCharacter) :
  wf c ->
  match update (S (S k)) dt c with
  | Ok c' => wf c'
  | Undefined => True
  | OutOfFuel => False
  end.
Proof.
  intros Hwf. unfold update.
  destruct (currentState c) as [[| | |t|t]|] eqn:Hcur; try exact Hwf.
  - destruct (mana c <? 50); [|exact Hwf].
    destruct (to_int _); [|exact I].
    destruct (in_int _); [exact Hwf|exact I].
  - cbv zeta. destruct (le _ _); keeps_wf Hwf.
  - cbv zeta. destruct (ge _ _); [|exact Hwf].
    destruct (isGrounded _); keeps_wf Hwf.
  - cbv zeta. destruct (ge _ _); [|exact Hwf].
    unfold castSpell. destruct (in_int _); [|exact I].
    cbn [bind]. keeps_wf Hwf.
Qed.

(** C6: entering casting with less mana than the cast costs ends, within
    the same [setState] call, in idle with the mana pool (and everything but
    the move speed, which idle zeroes) as it was; the key for casting pressed
    in idle with too little mana does not even try. *)
Theorem casting_without_mana_reverts_to_idle (k : nat) (c : StateCharacter) :
  wf c ->
  may_leave "casting" c ->
  mana c < manaCost ->
  setState (S (S k)) "casting" c
    = Ok (setMoveSpeed zero (with_currentState (Some IdleState) c))
  /\ mana (setMoveSpeed zero (with_currentState (Some IdleState) c)) = mana c
  /\ (currentState c = Some IdleState -> handleInput (S (S k)) 75 c = Ok c).
Proof.
  intros Hwf Hleave Hmana.
  rewrite (setState_closed_form k "casting" c Hwf).
  destruct c as [cur sts nm px py h mh ms g jv mn mm].
  unfold may_leave, accepts, transition, entered, handleInput in *; cbn in *.
  assert (Hlt : (mn <? manaCost) = true) by (apply Z.ltb_lt; exact Hmana).
  assert (Hge : (10 <=? mn) = false) by (apply Z.leb_gt; exact Hmana).
  destruct cur as [[| | |t|t]|]; try discriminate Hleave; cbn; rewrite Hlt;
    (split; [reflexivity|split; [reflexivity|]]); intros Hc; try discriminate Hc.
  cbn. rewrite Hge. reflexivity.
Qed.

Lemma casting_without_mana_reverts_to_idle_witness :
  setState 2 "casting" player_mana5 = Ok player_mana5
  /\ mana player_mana5 = 5.
Proof.
  destruct (casting_without_mana_reverts_to_idle 0 player_mana5)
    as [H1 [H2 _]]; [reflexivity | reflexivity | reflexivity |].
  split; [exact H1 | reflexivity].
Defined.

(** C10: when the attack timer reaches the attack duration while the
    character is not grounded, [update] moves on to jumping and runs its
    enter-hook: grounded stays false and the vertical velocity becomes the
    full jump force 300, whatever it was before; the position is kept. *)
Theorem attack_ending_airborne_relaunches
    (k : nat) (c : StateCharacter) (attackTimer deltaTime : f32) :
  wf c ->
  currentState c = Some (AttackingState attackTimer) ->
  isGrounded c = false ->
  ge (add attackTimer deltaTime) attackDuration = true ->
  exists c',
    update (S (S k)) deltaTime c = Ok c'
    /\ currentState c' = Some JumpingState
    /\ isGrounded c' = false
    /\ jumpVelocity c' = of_int 300
    /\ x c' = x c /\ y c' = y c /\ wf c'.
Proof.
  intros Hwf Hcur Hair Hdone.
  destruct c as [cur sts nm px py h mh ms g jv mn mm]; cbn in *.
  subst cur g. unfold update; cbn [currentState isGrounded with_currentState].
  rewrite Hdone.
  rewrite setState_closed_form by exact Hwf.
  eexists; split; [reflexivity|].
  cbn. repeat split. exact Hwf.
Qed.

Lemma attack_ending_airborne_relaunches_witness :
  exists c',
    update 2 (lit 16 1000) player_air_attack = Ok c'
    /\ currentState c' = Some JumpingState
    /\ isGrounded c' = false
    /\ jumpVelocity c' = of_int 300
    /\ x c' = x player_air_attack /\ y c' = y player_air_attack /\ wf c'.
Proof.
  apply (attack_ending_airborne_relaunches 0 player_air_attack (lit 49 100));
    reflexivity.
Defined.

(** One time step of the jumping state, with the nested [setState]
    resolved. *)
Lemma update_jumping (k : nat) (dt : f32) (c : StateCharacter) :
  wf c ->
  currentState c = Some JumpingState ->
  let v1 := add (jumpVelocity c) (mul gravity dt) in
  let y1 := add (y c) (mul v1 dt) in
  update (S (S k)) dt c =
    Ok (if le y1 zero
        then setMoveSpeed zero
               (with_currentState (Some IdleState)
                  (setJumpVelocity zero
                     (setGrounded true (setPosition (add (x c) zero) zero c))))
        else setPosition (add (x c) zero) y1 (setJumpVelocity v1 c)).
Proof.
  intros Hwf Hcur.
  destruct c as [cur sts nm px py h mh ms g jv mn mm].
  cbn [currentState] in Hcur. subst cur.
  cbn [x y jumpVelocity]. cbn zeta.
  unfold update, move.
  cbn [currentState setJumpVelocity setPosition x y jumpVelocity].
  destruct (le (add py (mul (add jv (mul gravity dt)) dt)) zero); [|reflexivity].
  rewrite setState_closed_form by exact Hwf.
  reflexivity.
Qed.

(** Idle time steps touch nothing but the mana pool, and never run out of
    fuel; they are undefined only where the mana gain does not fit [int]. *)
Lemma update_idle_keeps (fuel : nat) (dt : f32) (c : StateCharacter) :
  currentState c = Some IdleState ->
  match update fuel dt c with
  | Ok c' =>
      currentState c' = Some IdleState /\ x c' = x c /\ y c' = y c
      /\ jumpVelocity c' = jumpVelocity c /\ isGrounded c' = isGrounded c
      /\ states c' = states c
  | Undefined => True
  | OutOfFuel => False
  end.
Proof.
  intros Hcur. unfold update. rewrite Hcur.
  destruct (mana c <? 50); [|tauto].
  destruct (to_int (mul (of_int 5) dt)) as [gain|]; [|exact I].
  destruct (in_int (mana c + gain)); [|exact I].
  cbn. tauto.
Qed.

Lemma run_updates_landed (fuel : nat) (dts : list f32) (c : StateCharacter) :
  landed c ->
  match run_updates fuel dts c with
  | Ok c' => landed c'
  | Undefined => True
  | OutOfFuel => False
  end.
Proof.
  revert c. induction dts as [|dt rest IH]; intros c Hc; cbn.
  - exact Hc.
  - destruct Hc as (Hcur & Hy & Hv & Hg).
    pose proof (update_idle_keeps fuel dt c Hcur) as Hstep.
    destruct (update fuel dt c) as [c'| |]; cbn; [|exact I|exact Hstep].
    destruct Hstep as (Hcur' & _ & Hy' & Hv' & Hg' & _).
    apply IH. unfold landed. rewrite Hy', Hv', Hg'. tauto.
Qed.

(** C5: a run of [update] calls in the jumping state follows the direct
    integration [v' = v + g*dt], [y' = y + v'*dt] for as long as the
    integrated height stays above 0; at the first step where it does not,
    the character is put on the ground (height 0, velocity 0, grounded,
    state idle), and no later [update] lifts it again. *)
Theorem jumping_follows_direct_integration
    (k : nat) (dts : list f32) (c : StateCharacter) :
  wf c ->
  currentState c = Some JumpingState ->
  match integrate (y c) (jumpVelocity c) dts with
  | InAir y' v' =>
      exists c',
        run_updates (S (S k)) dts c = Ok c'
        /\ currentState c' = Some JumpingState
        /\ y c' = y' /\ jumpVelocity c' = v'
        /\ isGrounded c' = isGrounded c
  | OnGround n =>
      exists c0,
        run_updates (S (S k)) (take n dts) c = Ok c0
        /\ landed c0
        /\ forall later,
             match run_updates (S (S k)) later c0 with
             | Ok c1 => landed c1
             | Undefined => True
             | OutOfFuel => False
             end
  end.
Proof.
  revert c. induction dts as [|dt rest IH]; intros c Hwf Hcur.
  - cbn. exists c. tauto.
  - cbn [integrate].
    pose proof (update_jumping k dt c Hwf Hcur) as Hstep. cbn zeta in Hstep.
    destruct (le (add (y c) (mul (add (jumpVelocity c) (mul gravity dt)) dt)) zero)
      eqn:Hground.
    + eexists. cbn [take run_updates]. rewrite Hstep. cbn [bind].
      split; [reflexivity|].
      assert (Hl : landed
                (setMoveSpeed zero
                   (with_currentState (Some IdleState)
                      (setJumpVelocity zero
                         (setGrounded true
                            (setPosition (add (x c) zero) zero c))))))
        by (unfold landed; cbn; tauto).
      split; [exact Hl|].
      intros later. apply run_updates_landed, Hl.
    + set (c2 := setPosition (add (x c) zero)
                   (add (y c) (mul (add (jumpVelocity c) (mul gravity dt)) dt))
                   (setJumpVelocity (add (jumpVelocity c) (mul gravity dt)) c))
        in Hstep.
      assert (Hwf2 : wf c2) by exact Hwf.
      assert (Hcur2 : currentState c2 = Some JumpingState) by exact Hcur.
      specialize (IH c2 Hwf2 Hcur2).
      change (y c2) with
        (add (y c) (mul (add (jumpVelocity c) (mul gravity dt)) dt)) in IH.
      change (jumpVelocity c2) with (add (jumpVelocity c) (mul gravity dt)) in IH.
      destruct (integrate _ _ rest) as [y' v'|n].
      * destruct IH as (c' & Hrun & Hrest).
        exists c'. cbn [run_updates]. rewrite Hstep. cbn [bind].
        split; [exact Hrun|exact Hrest].
      * destruct IH as (c0 & Hrun & Hrest).
        exists c0. cbn [take run_updates]. rewrite Hstep. cbn [bind].
        split; [exact Hrun|exact Hrest].
Qed.

(** From 25 above ground, rising at 50: still in the air after two frames
    of 0.016, and down at the second of the steps 0.1, 0.5. *)
Lemma jumping_follows_direct_integration_witness :
  (exists c',
     run_updates 2 [lit 16 1000; lit 16 1000] player_airborne = Ok c'
     /\ currentState c' = Some JumpingState
     /\ y c' = S754_finite false 13744735 (-19)
     /\ jumpVelocity c' = of_int 34
     /\ isGrounded c' = isGrounded player_airborne)
  /\ (exists c0,
        run_updates 2 (take 2 [lit 1 10; lit 1 2; lit 16 1000]) player_airborne
          = Ok c0
        /\ landed c0
        /\ forall later,
             match run_updates 2 later c0 with
             | Ok c1 => landed c1
             | Undefined => True
             | OutOfFuel => False
             end).
Proof.
  split.
  - generalize (jumping_follows_direct_integration 0 [lit 16 1000; lit 16 1000]
                  player_airborne eq_refl eq_refl).
    assert (E : integrate (y player_airborne) (jumpVelocity player_airborne)
                  [lit 16 1000; lit 16 1000]
                = InAir (S754_finite false 13744735 (-19)) (of_int 34))
      by (vm_compute; reflexivity).
    rewrite E. intros H; exact H.
  - generalize (jumping_follows_direct_integration 0
                  [lit 1 10; lit 1 2; lit 16 1000] player_airborne
                  eq_refl eq_refl).
    assert (E : integrate (y player_airborne) (jumpVelocity player_airborne)
                  [lit 1 10; lit 1 2; lit 16 1000]
                = OnGround 2)
      by (vm_compute; reflexivity).
    rewrite E. intros H; exact H.
Defined.

(** At the frame time 0.016 the idle mana gain [static_cast<int>(5 * dt)]
    is 0, so an idle step leaves any character with a sound mana pool
    exactly as it was. *)
Lemma update_idle_frame (fuel : nat) (c : StateCharacter) :
  currentState c = Some IdleState ->
  0 <= mana c <= maxMana c ->
  update fuel (lit 16 1000) c = Ok c.
Proof.
  intros Hcur Hmana.
  destruct c as [cur sts nm px py h mh ms g jv mn mm]; cbn in *. subst cur.
  unfold update; cbn [currentState mana].
  destruct (mn <? 50) eqn:E; [|reflexivity].
  apply Z.ltb_lt in E.
  change (to_int (mul (of_int 5) (lit 16 1000))) with (Some 0).
  cbv iota beta. rewrite Z.add_0_r.
  assert (Hin : in_int mn = true).
  { unfold in_int, int_min, int_max.
    apply andb_true_iff; split; apply Z.leb_le; lia. }
  rewrite Hin. unfold setMana; cbn.
  rewrite Z.min_r, Z.max_r by lia. reflexivity.
Qed.

(** C7 (the code departs from it): with 40 of 50 mana, idle steps at the
    frame time 0.016 never add any mana, however many there are. *)
Theorem idle_frames_regenerate_nothing (fuel n : nat) :
  mana player_mana40 = 40
  /\ run_updates fuel (replicate n (lit 16 1000)) player_mana40
     = Ok player_mana40.
Proof.
  split; [reflexivity|].
  induction n as [|n IH]; [reflexivity|].
  cbn [replicate run_updates].
  rewrite update_idle_frame; [exact IH | reflexivity | cbn; lia].
Qed.

End StateProofs.

(** ** Properties of the behaviour selector *)

Module StrategyProofs.
Import Strategy.

Ltac break_enemy e :=
  destruct e as [nm px py hp mhp sp dr ar cb tx ty ht].

Lemma moveTowards_behavior (tX tY dt : f32) (e : AIEnemy) :
  currentBehavior (moveTowards tX tY dt e) = currentBehavior e.
Proof. unfold moveTowards. destruct (gt _ _); reflexivity. Qed.

Lemma flee_behavior (fX fY dt : f32) (e : AIEnemy) :
  currentBehavior (flee fX fY dt e) = currentBehavior e.
Proof. unfold flee. destruct (gt _ _); reflexivity. Qed.

(** C1 (the code departs from it): with 15 of 100 health, patrolling, and a
    target out of attack range, Flee is eligible and first in the documented
    order, which would select it; [selectBestBehavior] walks the candidates
    in their order of registration instead and selects Chase. *)
Theorem selection_walks_registration_order :
  health (controlledEnemy wounded_far) = 15
  /\ maxHealth (controlledEnemy wounded_far) = 100
  /\ getCurrentBehaviorName (controlledEnemy wounded_far) = "巡逻"
  /\ canExecute FleeBehavior (controlledEnemy wounded_far) = true
  /\ canExecute BerserkBehavior (controlledEnemy wounded_far) = true
  /\ getCurrentBehaviorName (selectByPriority (controlledEnemy wounded_far))
     = "逃跑"
  /\ getCurrentBehaviorName (controlledEnemy (selectBestBehavior wounded_far))
     = "追击".
Proof. vm_compute. repeat split. Qed.

(** Without a target the same enemy does get Flee. *)
Example selection_without_target_flees :
  getCurrentBehaviorName (controlledEnemy (selectBestBehavior wounded_alone))
  = "逃跑".
Proof. vm_compute. reflexivity. Qed.

(** C2 (the code departs from it): an enemy that flees at 15 of 100 health
    has Flee as its highest-ranking eligible behaviour, yet the next
    [selectBestBehavior] replaces it with Berserk, and the one after that
    with Flee again; an attacker at half health, half-way through its
    cooldown, is replaced by a new Defend and its timer is lost. *)
Theorem selection_replaces_top_ranked_behavior :
  currentBehavior (controlledEnemy fleeing) = Some FleeBehavior
  /\ topEligible (controlledEnemy fleeing) = Some FleeBehavior
  /\ currentBehavior (controlledEnemy (selectBestBehavior fleeing))
     = Some BerserkBehavior
  /\ currentBehavior
       (controlledEnemy (selectBestBehavior (selectBestBehavior fleeing)))
     = Some FleeBehavior
  /\ currentBehavior (controlledEnemy attacking_hurt)
     = Some (AttackBehavior (lit 1 2))
  /\ topEligible (controlledEnemy attacking_hurt) = Some (AttackBehavior zero)
  /\ currentBehavior (controlledEnemy (selectBestBehavior attacking_hurt))
     = Some (DefendBehavior zero).
Proof. vm_compute. repeat split. Qed.

(** What [update] is made of. *)
Lemma update_unfold (deltaTime : f32) (cw : Z) (c : StrategyAIController) :
  update deltaTime (cw, c) =
    (fst (AIEnemy_update deltaTime (cw, controlledEnemy (reevaluate deltaTime c))),
     with_enemy
       (snd (AIEnemy_update deltaTime (cw, controlledEnemy (reevaluate deltaTime c))))
       (reevaluate deltaTime c)).
Proof.
  unfold update. fold (reevaluate deltaTime c).
  destruct (AIEnemy_update deltaTime _); reflexivity.
Qed.

(** C3, the sentence as written is refuted: at full health and forced to
    defend, [update] leaves the speed at 50, where [execute] would have
    halved it. *)
Lemma update_always_delegates_counterexample : ~ always_delegates.
Proof.
  intros H.
  destruct (H 0 defending (lit 16 1000)) as (b & Hb & Hupd).
  vm_compute in Hb. injection Hb as <-.
  vm_compute in Hupd. discriminate Hupd.
Qed.

(** C3, amended: [update(dt)] adds [dt] to the accumulator; when the sum
    has reached the interval 1.0 it runs the selection and zeroes the
    accumulator; then it calls the enemy's [update], which runs the active
    behaviour's [execute(dt)] only if there is an active behaviour and its
    [canExecute] holds, and otherwise changes nothing. *)
Theorem update_accumulates_selects_then_guards
    (cw : Z) (c : StrategyAIController) (deltaTime : f32) :
  let acc := add (timeSinceLastUpdate c) deltaTime in
  let due := ge acc behaviorUpdateInterval in
  let chosen := controlledEnemy (if due then selectBestBehavior c else c) in
  let r := update deltaTime (cw, c) in
  timeSinceLastUpdate (snd r) = (if due then zero else acc)
  /\ availableBehaviors (snd r) = availableBehaviors c
  /\ (fst r, controlledEnemy (snd r))
     = match currentBehavior chosen with
       | Some b =>
           if canExecute b chosen then execute b deltaTime (cw, chosen)
           else (cw, chosen)
       | None => (cw, chosen)
       end.
Proof.
  cbn zeta. rewrite update_unfold. cbn [fst snd].
  unfold reevaluate. cbn [timeSinceLastUpdate with_time].
  destruct (ge (add (timeSinceLastUpdate c) deltaTime) behaviorUpdateInterval).
  - split; [reflexivity|]. split; [reflexivity|].
    cbn [controlledEnemy with_enemy with_time selectBestBehavior availableBehaviors].
    unfold AIEnemy_update. cbn [snd].
    destruct (currentBehavior _) as [b|]; [|reflexivity].
    destruct (canExecute b _); [|reflexivity].
    destruct (execute b deltaTime _); reflexivity.
  - split; [reflexivity|]. split; [reflexivity|].
    cbn [controlledEnemy with_enemy with_time].
    unfold AIEnemy_update. cbn [snd].
    destruct (currentBehavior _) as [b|]; [|reflexivity].
    destruct (canExecute b _); [|reflexivity].
    destruct (execute b deltaTime _); reflexivity.
Qed.

(** One call of Defend's [execute]. *)
Lemma execute_current_defend (dt t : f32) (cw : Z) (e : AIEnemy) :
  currentBehavior e = Some (DefendBehavior t) ->
  execute_current dt (cw, e) =
    (cw,
     setBehavior
       (Some (DefendBehavior
                (if ge (add t dt) defendDuration then zero else add t dt)))
       (setSpeed (mul (speed e) (lit 1 2)) e)).
Proof.
  intros Hcur. unfold execute_current. cbn [snd]. rewrite Hcur.
  unfold execute. destruct (ge (add t dt) defendDuration); reflexivity.
Qed.

Lemma halved_step (n : nat) (s : f32) :
  halved n (mul s (lit 1 2)) = halved (S n) s.
Proof.
  unfold halved. symmetry.
  exact (Nat.iter_succ_r n (fun v => mul v (lit 1 2)) s).
Qed.

(** C8, the sentence as written is refuted: two frames of 0.016 into
    defending, with the timer at 0.032 of 2.0, the speed 50 is down to 12.5,
    not 25. *)
Lemma defend_halved_once_counterexample : ~ halved_once_per_duration.
Proof.
  intros H.
  specialize (H 0 (controlledEnemy defending) [lit 16 1000; lit 16 1000]
                eq_refl ltac:(discriminate) eq_refl).
  vm_compute in H. discriminate H.
Qed.

(** C8, amended: every [execute] call of Defend halves the speed the enemy
    has at that moment, so [n] calls leave it halved [n] times over, within
    one defend duration as across several; the timer accumulates and goes
    back to 0 on the call that brings it to the duration 2.0, and that call
    halves the speed like any other: nothing ever restores it. *)
Theorem defend_halves_speed_on_every_call
    (dts : list f32) (cw : Z) (e : AIEnemy) (defendTimer : f32) :
  currentBehavior e = Some (DefendBehavior defendTimer) ->
  run_execute dts (cw, e) =
    (cw,
     setBehavior (Some (DefendBehavior (defend_timer defendTimer dts)))
       (setSpeed (halved (length dts) (speed e)) e))
  /\ forall dt,
       ge (add defendTimer dt) defendDuration = true ->
       execute (DefendBehavior defendTimer) dt (cw, e) =
         (cw,
          setBehavior (Some (DefendBehavior zero))
            (setSpeed (mul (speed e) (lit 1 2)) e)).
Proof.
  intros Hcur. split.
  - revert e defendTimer Hcur.
    induction dts as [|dt rest IH]; intros e t Hcur.
    + cbn. break_enemy e. cbn in Hcur. subst cb. reflexivity.
    + cbn [run_execute defend_timer length].
      rewrite (execute_current_defend dt t cw e Hcur).
      set (t' := if ge (add t dt) defendDuration then zero else add t dt).
      rewrite (IH (setBehavior (Some (DefendBehavior t'))
                     (setSpeed (mul (speed e) (lit 1 2)) e)) t' eq_refl).
      cbn [speed setBehavior setSpeed]. rewrite halved_step.
      reflexivity.
  - intros dt Hdone. unfold execute. rewrite Hdone. reflexivity.
Qed.

Lemma defend_halves_speed_on_every_call_witness :
  run_execute [lit 16 1000; lit 16 1000; of_int 2] (0, controlledEnemy defending)
  = (0,
     setBehavior (Some (DefendBehavior zero))
       (setSpeed (lit 25 4) (controlledEnemy defending)))
  /\ speed (controlledEnemy defending) = of_int 50.
Proof.
  split; [|reflexivity].
  destruct (defend_halves_speed_on_every_call
              [lit 16 1000; lit 16 1000; of_int 2] 0
              (controlledEnemy defending) zero eq_refl) as [H _].
  rewrite H. vm_compute. reflexivity.
Defined.

(** Selection never installs a patrolling behaviour. *)
Lemma selectLoop_away (candidates : list AIBehavior) (e : AIEnemy) :
  patrols (currentBehavior e) = false ->
  patrols (currentBehavior (selectLoop candidates e)) = false.
Proof.
  intros Haway. induction candidates as [|b rest IH]; [exact Haway|].
  cbn [selectLoop].
  destruct (canExecute b e); [|exact IH].
  destruct (negb _); [|exact IH].
  repeat (match goal with
          | |- context [if String.eqb ?a ?b then _ else _] =>
              destruct (String.eqb a b); [reflexivity|]
          end).
  exact IH.
Qed.

(** A switch made by selection installs a fresh behaviour object. *)
Lemma selectLoop_fresh (candidates : list AIBehavior) (e : AIEnemy) :
  selectLoop candidates e = e
  \/ exists b, selectLoop candidates e = setBehavior (Some b) e /\ fresh b.
Proof.
  induction candidates as [|b rest IH]; [left; reflexivity|].
  cbn [selectLoop].
  destruct (canExecute b e); [|exact IH].
  destruct (negb _); [|exact IH].
  repeat (match goal with
          | |- context [if String.eqb ?a ?b then _ else _] =>
              destruct (String.eqb a b);
              [right; eexists; split; [reflexivity|];
               unfold fresh; cbn; repeat constructor|]
          end).
  exact IH.
Qed.

Lemma forceBehavior_fresh (behaviorName : string) (c : StrategyAIController) :
  forceBehavior behaviorName c = c
  \/ exists b,
       forceBehavior behaviorName c
       = with_enemy (setBehavior (Some b) (controlledEnemy c)) c
       /\ getBehaviorName b = behaviorName /\ fresh b.
Proof.
  unfold forceBehavior.
  repeat (match goal with
          | |- context [if String.eqb ?a ?b then _ else _] =>
              destruct (String.eqb_spec a b) as [->|_];
              [right; eexists; split; [reflexivity|split; [reflexivity|]];
               unfold fresh; cbn; repeat constructor|]
          end).
  left; reflexivity.
Qed.

(** Behaviours other than the patrolling ones neither read nor write the
    patrol counter, and stay what they are. *)
Lemma execute_away (b : AIBehavior) (dt : f32) (cw : Z) (e : AIEnemy) :
  currentBehavior e = Some b ->
  patrols (Some b) = false ->
  fst (execute b dt (cw, e)) = cw
  /\ patrols (currentBehavior (snd (execute b dt (cw, e)))) = false.
Proof.
  intros Hcur Haway.
  destruct b; try discriminate Haway; unfold execute.
  - destruct (hasTarget e); cbn [fst snd];
      rewrite ?moveTowards_behavior, Hcur; split; reflexivity.
  - destruct (ge _ _); split; reflexivity.
  - destruct (hasTarget e); cbn [fst snd];
      rewrite ?flee_behavior, Hcur; split; reflexivity.
  - destruct (ge _ _); split; reflexivity.
  - unfold setSpeed, attack. cbn [hasTarget targetX targetY].
    destruct (hasTarget e).
    + destruct (le _ _); cbn [fst snd];
        rewrite moveTowards_behavior; cbn [currentBehavior];
        rewrite Hcur; split; reflexivity.
    + cbn [fst snd currentBehavior]. rewrite Hcur. split; reflexivity.
Qed.

Lemma update_away (dt : f32) (cw : Z) (c : StrategyAIController) :
  patrols (currentBehavior (controlledEnemy c)) = false ->
  fst (update dt (cw, c)) = cw
  /\ patrols (currentBehavior (controlledEnemy (snd (update dt (cw, c))))) = false.
Proof.
  intros Haway. rewrite update_unfold. cbn [fst snd controlledEnemy with_enemy].
  assert (Hre : patrols (currentBehavior (controlledEnemy (reevaluate dt c)))
                = false).
  { unfold reevaluate. destruct (ge _ _); [|exact Haway].
    cbn [controlledEnemy with_time selectBestBehavior with_enemy availableBehaviors].
    apply selectLoop_away, Haway. }
  unfold AIEnemy_update. cbn [snd].
  destruct (currentBehavior (controlledEnemy (reevaluate dt c))) as [b|] eqn:Hcur.
  - destruct (canExecute b _).
    + apply execute_away; [exact Hcur|exact Hre].
    + cbn [fst snd]. rewrite Hcur. split; [reflexivity|exact Hre].
  - cbn [fst snd]. rewrite Hcur. split; reflexivity.
Qed.

Lemma run_updates_away (dts : list f32) (cw : Z) (c : StrategyAIController) :
  patrols (currentBehavior (controlledEnemy c)) = false ->
  fst (run_updates dts (cw, c)) = cw
  /\ patrols (currentBehavior (controlledEnemy (snd (run_updates dts (cw, c)))))
     = false.
Proof.
  revert c. induction dts as [|dt rest IH]; intros c Haway.
  - split; [reflexivity|exact Haway].
  - cbn [run_updates].
    destruct (update_away dt cw c Haway) as [Hcw Haway'].
    destruct (update dt (cw, c)) as [cw' c'] eqn:Hupd.
    cbn [fst snd] in Hcw, Haway'. subst cw'.
    apply IH, Haway'.
Qed.

(** The first patrol step of a new enemy at the origin already advances the
    counter.  A second enemy at (50, 0) updated on its own walks left towards
    waypoint 0 (to x = 49.2); updated after the first in the same battle it
    walks right towards waypoint 1 (to x = 50.8). *)
Example patrol_counter_is_shared :
  fst (update (lit 16 1000) (0, grunt_ai)) = 1
  /\ x (controlledEnemy (snd (update (lit 16 1000) (0, grunt2_ai))))
     = S754_finite false 12897485 (-18)
  /\ (let '(cw, cs) := updateBattle (lit 16 1000) 0 [grunt_ai; grunt2_ai] in
      (cw, map (fun c => x (controlledEnemy c)) cs))
     = (1, [zero; S754_finite false 13316915 (-18)]).
Proof. vm_compute. repeat split. Qed.

(** C9, the sentence as written is refuted: with the counter at 1, an enemy
    switched to Flee and back to Patrol walks on towards waypoint 1, and
    does not start again at waypoint 0. *)
Lemma patrol_progress_starts_fresh_counterexample :
  ~ patrol_progress_starts_fresh.
Proof.
  intros H.
  assert (Hcw : 0 <= 1 < size_max) by (unfold size_max; lia).
  specialize (H 1 grunt_ai "逃跑" (lit 16 1000) Hcw).
  vm_compute in H. discriminate H.
Qed.

(** C9, amended: a behaviour object installed by a switch ([forceBehavior]
    or a selection that changes the behaviour) is fresh, its timers at 0, and
    behaviour objects hold nothing else that changes.  The patrol progress
    is not held in a behaviour object but in the one counter of
    [AIEnemy::patrol]: while a non-patrolling behaviour is active no
    [update] changes it, and after the switch back to Patrol the enemy's
    next step is the patrol step on that same counter. *)
Theorem patrol_counter_survives_switches
    (cw : Z) (c : StrategyAIController) (away : string) (dts : list f32) :
  patrols (currentBehavior (controlledEnemy (forceBehavior away c))) = false ->
  let w := run_updates dts (cw, forceBehavior away c) in
  let back := controlledEnemy (forceBehavior "巡逻" (snd w)) in
  fst w = cw
  /\ currentBehavior back = Some (PatrolBehavior defaultWaypoints)
  /\ (forall dt,
        AIEnemy_update dt (fst w, back)
        = if 0 <? health back then patrol defaultWaypoints dt (cw, back)
          else (cw, back))
  /\ (forall behaviorName,
        forceBehavior behaviorName c = c
        \/ exists b,
             forceBehavior behaviorName c
             = with_enemy (setBehavior (Some b) (controlledEnemy c)) c
             /\ getBehaviorName b = behaviorName /\ fresh b)
  /\ (selectBestBehavior c = c
      \/ exists b,
           selectBestBehavior c
           = with_enemy (setBehavior (Some b) (controlledEnemy c)) c
           /\ fresh b).
Proof.
  intros Haway. cbn zeta.
  destruct (run_updates_away dts cw (forceBehavior away c) Haway) as [Hcw _].
  split; [exact Hcw|]. split; [reflexivity|].
  split; [|split].
  - intros dt. rewrite Hcw. unfold AIEnemy_update. cbn [snd].
    change (currentBehavior
              (controlledEnemy
                 (forceBehavior "巡逻"
                    (snd (run_updates dts (cw, forceBehavior away c))))))
      with (Some (PatrolBehavior defaultWaypoints)).
    cbv iota beta. unfold canExecute.
    destruct (0 <? health _); reflexivity.
  - intros behaviorName. apply forceBehavior_fresh.
  - unfold selectBestBehavior.
    destruct (selectLoop_fresh (availableBehaviors c) (controlledEnemy c))
      as [Heq|(b & Heq & Hb)]; rewrite Heq.
    + left. destruct c; reflexivity.
    + right. exists b. split; [reflexivity|exact Hb].
Qed.

Lemma patrol_counter_survives_switches_witness :
  fst (run_updates [lit 16 1000; lit 16 1000]
         (1, forceBehavior "逃跑" grunt_ai)) = 1
  /\ currentBehavior
       (controlledEnemy
          (forceBehavior "巡逻"
             (snd (run_updates [lit 16 1000; lit 16 1000]
                     (1, forceBehavior "逃跑" grunt_ai)))))
     = Some (PatrolBehavior defaultWaypoints).
Proof.
  destruct (patrol_counter_survives_switches 1 grunt_ai "逃跑"
              [lit 16 1000; lit 16 1000] eq_refl) as (H1 & H2 & _).
  split; [exact H1|exact H2].
Defined.

End StrategyProofs.

(** ** Further properties of the state machine *)

Module StateMoreProofs.
Import State StateMore StateProofs.

(** After [destruct]ing the character, resolve every nested [setState]. *)
Ltac resolve_setState Hwf :=
  repeat rewrite setState_closed_form by exact Hwf.

Ltac split_ifs :=
  repeat match goal with
         | |- context [if ?b then _ else _] => destruct b eqn:?
         end.

(** Re-requesting the active state is refused: the guard of no state admits
    its own name, so [setState] with the active state's name changes
    nothing, timers included. *)
Theorem setState_own_name_is_refused
    (k : nat) (s : CharacterState) (c : StateCharacter) :
  wf c ->
  currentState c = Some s ->
  setState (S (S k)) (getStateName s) c = Ok c.
Proof.
  intros Hwf Hcur.
  rewrite setState_closed_form by exact Hwf.
  unfold accepts. rewrite Hcur.
  destruct s; reflexivity.
Qed.

Lemma setState_own_name_is_refused_witness :
  setState 2 "casting" player_casting = Ok player_casting.
Proof.
  exact (setState_own_name_is_refused 0 (CastingState (lit 1 2)) player_casting
           eq_refl eq_refl).
Defined.

(** An accepted [setState(name)] leaves the character in the state called
    [name], except that casting requested with less than 10 mana leaves it
    in idle; a refused one leaves the state name as it was. *)
Theorem setState_arrives_where_asked
    (k : nat) (stateName : string) (c : StateCharacter) :
  wf c ->
  exists c',
    setState (S (S k)) stateName c = Ok c'
    /\ getCurrentStateName c'
       = if accepts stateName c then arrival stateName c
         else getCurrentStateName c.
Proof.
  intros Hwf. rewrite setState_closed_form by exact Hwf.
  eexists; split; [reflexivity|].
  destruct (accepts stateName c) eqn:Hacc; [|reflexivity].
  unfold accepts in Hacc. apply andb_true_iff in Hacc as [Hreg _].
  destruct c as [cur sts nm px py h mh ms g jv mn mm].
  unfold arrival, transition, entered, getCurrentStateName, onExit.
  registered_name Hreg; destruct cur as [[| | |t|t]|]; cbn; try reflexivity;
    destruct (mn <? manaCost); reflexivity.
Qed.

Lemma setState_arrives_where_asked_witness :
  exists c',
    setState 2 "casting" player_mana5 = Ok c'
    /\ getCurrentStateName c' = "idle".
Proof.
  exact (setState_arrives_where_asked 0 "casting" player_mana5 eq_refl).
Defined.

(** A key code for which the active state's handler has no case changes
    nothing at all (whatever the fuel): every code in attacking, the jump
    and cast keys in mid-air, the cast key while walking, and so on. *)
Theorem handleInput_ignores_unhandled_codes
    (fuel : nat) (inputCode : Z) (s : CharacterState) (c : StateCharacter) :
  currentState c = Some s ->
  ~ In inputCode (handled s) ->
  handleInput fuel inputCode c = Ok c.
Proof.
  intros Hcur Hnot. unfold handleInput. rewrite Hcur.
  destruct s; cbn [handled In] in Hnot; try reflexivity;
    repeat match goal with
           | |- context [?a =? ?b] =>
               destruct (Z.eqb_spec a b); [exfalso; apply Hnot; lia|]
           end;
    reflexivity.
Qed.

Lemma handleInput_ignores_unhandled_codes_witness :
  handleInput 2 32 (transition "jumping" player) = Ok (transition "jumping" player)
  /\ handleInput 2 74 player_attacking = Ok player_attacking.
Proof.
  split.
  - apply (handleInput_ignores_unhandled_codes 2 32 JumpingState);
      [reflexivity | cbn; lia].
  - apply (handleInput_ignores_unhandled_codes 2 74 (AttackingState zero));
      [reflexivity | cbn; tauto].
Defined.

(** [handleInput] always returns: with the registry intact it is never
    undefined and needs no more than two nested calls; afterwards the
    registry is intact, a state is still active, and mana, health and their
    caps are what they were: no key press costs or restores anything. *)
Theorem handleInput_returns_and_keeps_resources
    (k : nat) (inputCode : Z) (c : StateCharacter) :
  wf c ->
  exists c',
    handleInput (S (S k)) inputCode c = Ok c'
    /\ handleInput 2 inputCode c = Ok c'
    /\ wf c'
    /\ (currentState c <> None -> currentState c' <> None)
    /\ mana c' = mana c /\ maxMana c' = maxMana c
    /\ health c' = health c /\ maxHealth c' = maxHealth c.
Proof.
  intros Hwf.
  destruct c as [cur sts nm px py h mh ms g jv mn mm].
  unfold handleInput; cbn [currentState isGrounded mana].
  destruct cur as [[| | |t|t]|]; split_ifs; resolve_setState Hwf;
    eexists; (split; [reflexivity|]); (split; [reflexivity|]);
    cbn; split_ifs; cbn; repeat split; solve [exact Hwf | discriminate | tauto].
Qed.

Lemma handleInput_returns_and_keeps_resources_witness :
  exists c',
    handleInput 2 65 player_casting = Ok c'
    /\ handleInput 2 65 player_casting = Ok c'
    /\ wf c'
    /\ (currentState player_casting <> None -> currentState c' <> None)
    /\ mana c' = mana player_casting /\ maxMana c' = maxMana player_casting
    /\ health c' = health player_casting
    /\ maxHealth c' = maxHealth player_casting.
Proof.
  exact (handleInput_returns_and_keeps_resources 0 65 player_casting eq_refl).
Defined.

Lemma to_int_range (a : f32) (z : Z) :
  to_int a = Some z -> int_min <= z <= int_max.
Proof.
  unfold to_int. destruct (trunc a) as [t|]; [|discriminate].
  destruct (in_int t) eqn:Hin; [|discriminate].
  intros [= <-]. unfold in_int in Hin.
  apply andb_true_iff in Hin as [H1 H2].
  apply Z.leb_le in H1. apply Z.leb_le in H2. lia.
Qed.

Lemma in_int_true (z : Z) : int_min <= z <= int_max -> in_int z = true.
Proof.
  intros H. unfold in_int. apply andb_true_iff; split; apply Z.leb_le; lia.
Qed.

Lemma in_int_false (z : Z) : in_int z = false -> z < int_min \/ int_max < z.
Proof.
  unfold in_int. intros H.
  apply andb_false_iff in H as [H|H]; apply Z.leb_gt in H; lia.
Qed.

(** A time step is undefined in exactly one situation: in idle below 50
    mana, when [5 * dt] does not convert to [int] or the new mana overflows.
    Everywhere else [update] returns, within two nested calls, with the
    registry intact, a state still active, and the mana pool still between 0
    and its unchanged cap. *)
Theorem update_returns_unless_regen_overflows
    (k : nat) (deltaTime : f32) (c : StateCharacter) :
  wf c ->
  mana_ok c ->
  (regen_undefined deltaTime c /\ update (S (S k)) deltaTime c = Undefined)
  \/ (~ regen_undefined deltaTime c
      /\ exists c',
           update (S (S k)) deltaTime c = Ok c'
           /\ update 2 deltaTime c = Ok c'
           /\ wf c' /\ mana_ok c' /\ maxMana c' = maxMana c
           /\ (currentState c <> None -> currentState c' <> None)).
Proof.
  intros Hwf [Hm Hcap].
  destruct c as [cur sts nm px py h mh ms g jv mn mm].
  unfold mana_ok, regen_undefined, update, castSpell;
    cbn [currentState isGrounded mana maxMana move setJumpVelocity setPosition
         with_currentState x y jumpVelocity] in *.
  assert (Hint : int_min <= 0 /\ manaCost = 10)
    by (unfold int_min, manaCost; lia).
  destruct cur as [[| | |t|t]|].
  - destruct (mn <? 50) eqn:E.
    + apply Z.ltb_lt in E.
      destruct (to_int (mul (of_int 5) deltaTime)) as [gain|] eqn:Hgain.
      * pose proof (to_int_range _ _ Hgain) as Hr.
        destruct (in_int (mn + gain)) eqn:Hin.
        -- right. split.
           ++ intros (_ & _ & Hov). unfold in_int in Hin.
              apply andb_true_iff in Hin as [_ Hin]. apply Z.leb_le in Hin. lia.
           ++ eexists. repeat split; cbn; try exact Hwf; try lia; discriminate.
        -- left. apply in_int_false in Hin. repeat split; try assumption. lia.
      * left. repeat split; assumption.
    + right. apply Z.ltb_ge in E. split; [intros (_ & Hlt & _); lia|].
      eexists. repeat split; cbn; try exact Hwf; try lia; discriminate.
  - right. split; [intros (Hc & _); discriminate Hc|].
    eexists. repeat split; cbn; try exact Hwf; try lia; discriminate.
  - right. split; [intros (Hc & _); discriminate Hc|].
    destruct (le _ _); resolve_setState Hwf;
      eexists; repeat split; cbn; try exact Hwf; try lia; discriminate.
  - right. split; [intros (Hc & _); discriminate Hc|].
    destruct (ge _ _); [destruct g|]; resolve_setState Hwf;
      eexists; repeat split; cbn; try exact Hwf; try lia; discriminate.
  - right. split; [intros (Hc & _); discriminate Hc|].
    destruct (ge _ _).
    + rewrite in_int_true by (unfold int_min, int_max, manaCost in *; lia).
      cbn [bind]. resolve_setState Hwf.
      eexists. repeat split; cbn; try exact Hwf; try lia; discriminate.
    + eexists. repeat split; cbn; try exact Hwf; try lia; discriminate.
  - right. split; [intros (Hc & _); discriminate Hc|].
    eexists. repeat split; cbn; try exact Hwf; try lia. tauto.
Qed.

Lemma update_returns_unless_regen_overflows_witness :
  (regen_undefined (of_int 1000000000) player_mana40
   /\ update 2 (of_int 1000000000) player_mana40 = Undefined)
  \/ (~ regen_undefined (of_int 1000000000) player_mana40
      /\ exists c',
           update 2 (of_int 1000000000) player_mana40 = Ok c'
           /\ update 2 (of_int 1000000000) player_mana40 = Ok c'
           /\ wf c' /\ mana_ok c' /\ maxMana c' = maxMana player_mana40
           /\ (currentState player_mana40 <> None -> currentState c' <> None)).
Proof.
  apply (update_returns_unless_regen_overflows 0 (of_int 1000000000)
           player_mana40); [reflexivity|].
  unfold mana_ok, int_max; cbn; lia.
Defined.

(** Key presses and time steps keep the grounded flag in line with the
    state: if an idle, walking or casting character is grounded and a
    jumping one is not, the same holds after [handleInput] and after
    [update]. *)
Theorem grounded_flag_follows_state
    (k : nat) (inputCode : Z) (deltaTime : f32) (c : StateCharacter) :
  wf c ->
  grounded_ok c ->
  (exists c', handleInput (S (S k)) inputCode c = Ok c' /\ grounded_ok c')
  /\ match update (S (S k)) deltaTime c with
     | Ok c' => grounded_ok c'
     | Undefined => True
     | OutOfFuel => False
     end.
Proof.
  intros Hwf Hg.
  destruct c as [cur sts nm px py h mh ms g jv mn mm].
  unfold grounded_ok in Hg; cbn [currentState isGrounded] in Hg.
  split.
  - unfold handleInput; cbn [currentState isGrounded mana].
    destruct cur as [[| | |t|t]|]; subst; split_ifs; resolve_setState Hwf;
      eexists; (split; [reflexivity|]);
      unfold grounded_ok; cbn; split_ifs; cbn; solve [reflexivity | exact I].
  - unfold update, castSpell;
      cbn [currentState isGrounded mana move setJumpVelocity setPosition
           with_currentState x y jumpVelocity].
    destruct cur as [[| | |t|t]|]; subst; cbn [currentState];
      try reflexivity; try exact I.
    + destruct (mn <? 50); [|reflexivity].
      destruct (to_int _) as [gain|]; [|exact I].
      destruct (in_int _); [reflexivity|exact I].
    + destruct (le _ _); resolve_setState Hwf; reflexivity.
    + destruct (ge _ _); [|exact I].
      destruct g; resolve_setState Hwf; cbn; reflexivity.
    + destruct (ge _ _); [|reflexivity].
      destruct (in_int _); [|exact I].
      cbn [bind]. resolve_setState Hwf. reflexivity.
Qed.

Lemma grounded_flag_follows_state_witness :
  (exists c', handleInput 2 32 player_walking = Ok c' /\ grounded_ok c')
  /\ match update 2 (lit 16 1000) player_walking with
     | Ok c' => grounded_ok c'
     | Undefined => True
     | OutOfFuel => False
     end.
Proof.
  exact (grounded_flag_follows_state 0 32 (lit 16 1000) player_walking
           eq_refl eq_refl).
Defined.

(** A cast in progress: a time step that keeps the timer below the cast
    duration only advances the timer; the step that reaches it deducts
    exactly the cost 10 and returns to idle; and the keys A and D interrupt
    the cast for walking with the mana pool untouched. *)
Theorem casting_costs_only_on_completion
    (k : nat) (castTimer deltaTime : f32) (c : StateCharacter) :
  wf c ->
  currentState c = Some (CastingState castTimer) ->
  manaCost <= mana c <= maxMana c ->
  maxMana c <= int_max ->
  (ge (add castTimer deltaTime) castDuration = false ->
     update (S (S k)) deltaTime c
     = Ok (with_currentState (Some (CastingState (add castTimer deltaTime))) c))
  /\ (ge (add castTimer deltaTime) castDuration = true ->
      exists c',
        update (S (S k)) deltaTime c = Ok c'
        /\ currentState c' = Some IdleState
        /\ mana c' = mana c - manaCost)
  /\ (forall inputCode, inputCode = 65 \/ inputCode = 68 ->
      handleInput (S (S k)) inputCode c
      = Ok (setMoveSpeed walkSpeed (with_currentState (Some WalkingState) c))).
Proof.
  intros Hwf Hcur Hm Hcap.
  destruct c as [cur sts nm px py h mh ms g jv mn mm].
  cbn [currentState mana maxMana] in *. subst cur.
  unfold update, handleInput, castSpell; cbn [currentState mana with_currentState].
  split; [|split].
  - intros ->. reflexivity.
  - intros ->.
    rewrite in_int_true by (unfold int_min, int_max, manaCost in *; lia).
    cbn [bind]. resolve_setState Hwf.
    eexists; split; [reflexivity|]. cbn. split; [reflexivity|].
    unfold manaCost in *. lia.
  - intros inputCode [-> | ->]; cbn [Z.eqb Pos.eqb orb];
      resolve_setState Hwf; reflexivity.
Qed.

Lemma casting_costs_only_on_completion_witness :
  update 2 (lit 16 1000) player_casting
  = Ok (with_currentState
          (Some (CastingState (add (lit 1 2) (lit 16 1000)))) player_casting)
  /\ (exists c',
        update 2 (lit 1 2) player_casting = Ok c'
        /\ currentState c' = Some IdleState
        /\ mana c' = 40).
Proof.
  destruct (casting_costs_only_on_completion 0 (lit 1 2) (lit 16 1000)
              player_casting) as (H1 & _ & _);
    [reflexivity | reflexivity | cbn; unfold manaCost; lia
    | cbn; unfold int_max; lia |].
  destruct (casting_costs_only_on_completion 0 (lit 1 2) (lit 1 2)
              player_casting) as (_ & H2 & _);
    [reflexivity | reflexivity | cbn; unfold manaCost; lia
    | cbn; unfold int_max; lia |].
  split; [apply H1; reflexivity | apply H2; reflexivity].
Defined.

(** An attack cannot be cut short: no key has any effect while it runs, a
    time step short of the attack duration only advances its timer, and the
    step that reaches the duration on the ground ends it in idle. *)
Theorem attack_runs_its_course
    (k : nat) (attackTimer deltaTime : f32) (inputCode : Z) (c : StateCharacter) :
  wf c ->
  currentState c = Some (AttackingState attackTimer) ->
  handleInput (S (S k)) inputCode c = Ok c
  /\ (ge (add attackTimer deltaTime) attackDuration = false ->
      update (S (S k)) deltaTime c
      = Ok (with_currentState
              (Some (AttackingState (add attackTimer deltaTime))) c))
  /\ (ge (add attackTimer deltaTime) attackDuration = true ->
      isGrounded c = true ->
      update (S (S k)) deltaTime c
      = Ok (setMoveSpeed zero (with_currentState (Some IdleState) c))).
Proof.
  intros Hwf Hcur.
  destruct c as [cur sts nm px py h mh ms g jv mn mm].
  cbn [currentState isGrounded] in *. subst cur.
  unfold update, handleInput; cbn [currentState isGrounded with_currentState].
  split; [reflexivity|]. split.
  - intros ->. reflexivity.
  - intros -> ->. resolve_setState Hwf. reflexivity.
Qed.

Lemma attack_runs_its_course_witness :
  handleInput 2 65 player_attacking = Ok player_attacking
  /\ update 2 (lit 1 2) player_attacking = Ok player.
Proof.
  destruct (attack_runs_its_course 0 zero (lit 1 2) 65 player_attacking)
    as (H1 & _ & H3); [reflexivity | reflexivity |].
  split; [exact H1|].
  rewrite H3; reflexivity.
Defined.

(** Walking has no time-based exit: once the key D (or A) has taken an idle
    character to walking, no sequence of time steps changes anything. *)
Theorem walking_outlasts_any_updates
    (k : nat) (inputCode : Z) (c : StateCharacter) :
  wf c ->
  currentState c = Some IdleState ->
  inputCode = 65 \/ inputCode = 68 ->
  exists c',
    handleInput (S (S k)) inputCode c = Ok c'
    /\ currentState c' = Some WalkingState
    /\ moveSpeed c' = walkSpeed
    /\ forall fuel dts, run_updates fuel dts c' = Ok c'.
Proof.
  intros Hwf Hcur Hkey.
  destruct c as [cur sts nm px py h mh ms g jv mn mm].
  cbn [currentState] in Hcur. subst cur.
  unfold handleInput; cbn [currentState].
  destruct Hkey as [-> | ->]; cbn [Z.eqb Pos.eqb orb]; resolve_setState Hwf;
    (eexists; split; [reflexivity|]); cbn;
    (split; [reflexivity|]); (split; [reflexivity|]);
    intros fuel dts; induction dts as [|dt rest IH]; cbn; auto.
Qed.

Lemma walking_outlasts_any_updates_witness :
  exists c',
    handleInput 2 68 player = Ok c'
    /\ currentState c' = Some WalkingState
    /\ moveSpeed c' = walkSpeed
    /\ forall fuel dts, run_updates fuel dts c' = Ok c'.
Proof.
  apply (walking_outlasts_any_updates 0 68 player);
    [reflexivity | reflexivity | right; reflexivity].
Defined.

(** Rounding keeps the sign it is given. *)
Lemma binary_round_aux_positive (mx ex : Z) (lx : location) (z : Z) :
  trunc (binary_round_aux prec emax false mx ex lx) = Some z -> 0 <= z.
Proof.
  unfold binary_round_aux.
  destruct (shr_fexp prec emax mx ex lx) as [mrs1 e1].
  destruct (shr_fexp prec emax _ e1 loc_Exact) as [mrs2 e2].
  destruct (shr_m mrs2) as [|m|m]; cbn [trunc].
  - intros [= <-]. lia.
  - destruct (e2 <=? emax - prec)%Z; cbn [trunc]; [|discriminate].
    intros [= <-]. apply Z.shiftl_nonneg. lia.
  - discriminate.
Qed.

Lemma regen_gain_nonneg (deltaTime : f32) (gain : Z) :
  le zero deltaTime = true ->
  to_int (mul (of_int 5) deltaTime) = Some gain ->
  0 <= gain.
Proof.
  intros Hle Hgain.
  change (of_int 5) with (S754_finite false 10485760 (-21)) in Hgain.
  unfold to_int in Hgain.
  destruct (trunc _) as [z|] eqn:Htr; [|discriminate].
  destruct (in_int z); [|discriminate]. injection Hgain as <-.
  destruct deltaTime as [s|s| |s m e]; cbn in Htr.
  - injection Htr as <-. lia.
  - discriminate.
  - discriminate.
  - destruct s; [discriminate Hle|].
    unfold mul, SFmul in Htr. cbn [xorb] in Htr.
    eapply binary_round_aux_positive, Htr.
Qed.

(** Idle regeneration never drains: for a time step that is not negative
    (and not NaN) the mana pool after an idle [update] is at least what it
    was and at most its cap, and from 50 mana on the step changes nothing. *)
Theorem idle_regeneration_never_drains
    (fuel : nat) (deltaTime : f32) (c : StateCharacter) :
  currentState c = Some IdleState ->
  le zero deltaTime = true ->
  0 <= mana c <= maxMana c ->
  match update fuel deltaTime c with
  | Ok c' => mana c <= mana c' <= maxMana c' /\ (50 <= mana c -> c' = c)
  | Undefined => regen_undefined deltaTime c
  | OutOfFuel => False
  end.
Proof.
  intros Hcur Hdt Hm.
  destruct c as [cur sts nm px py h mh ms g jv mn mm].
  cbn [currentState mana maxMana] in *. subst cur.
  unfold update, regen_undefined; cbn [currentState mana].
  destruct (mn <? 50) eqn:E.
  - apply Z.ltb_lt in E.
    destruct (to_int (mul (of_int 5) deltaTime)) as [gain|] eqn:Hgain.
    + pose proof (regen_gain_nonneg _ _ Hdt Hgain) as Hpos.
      destruct (in_int (mn + gain)) eqn:Hin.
      * cbn. split; lia.
      * apply in_int_false in Hin. unfold int_min in Hin.
        repeat split; try assumption. lia.
    + repeat split; assumption.
  - apply Z.ltb_ge in E. cbn. split; [lia|reflexivity].
Qed.

Lemma idle_regeneration_never_drains_witness :
  match update 2 (lit 1 2) player_mana40 with
  | Ok c' =>
      mana player_mana40 <= mana c' <= maxMana c'
      /\ (50 <= mana player_mana40 -> c' = player_mana40)
  | Undefined => regen_undefined (lit 1 2) player_mana40
  | OutOfFuel => False
  end.
Proof.
  apply (idle_regeneration_never_drains 2 (lit 1 2) player_mana40);
    [reflexivity | reflexivity | cbn; lia].
Defined.



(** [removeCharacter] takes out every occurrence of the pointer and nothing
    else, so it undoes [addCharacter] even for a character registered more
    than once, and removing a character that is not managed changes
    nothing. *)
Theorem removeCharacter_erases_every_occurrence
    (character : nat) (managedCharacters : list nat) :
  ~ In character (removeCharacter character managedCharacters)
  /\ (forall other, other <> character ->
        (In other (removeCharacter character managedCharacters)
         <-> In other managedCharacters))
  /\ removeCharacter character (addCharacter character managedCharacters)
     = removeCharacter character managedCharacters
  /\ (~ In character managedCharacters ->
      removeCharacter character managedCharacters = managedCharacters).
Proof.
  unfold removeCharacter, addCharacter.
  split; [|split; [|split]].
  - intros H. apply List.filter_In in H as [_ H].
    rewrite Nat.eqb_refl in H. discriminate H.
  - intros other Hne. rewrite List.filter_In. split; [tauto|].
    intros H. split; [exact H|].
    apply negb_true_iff, Nat.eqb_neq. exact Hne.
  - rewrite List.filter_app. cbn. rewrite Nat.eqb_refl. cbn.
    apply app_nil_r.
  - intros Hnot. induction managedCharacters as [|p rest IH]; [reflexivity|].
    cbn. destruct (Nat.eqb_spec p character) as [->|Hne].
    + exfalso. apply Hnot. left. reflexivity.
    + cbn. f_equal. apply IH. intros H. apply Hnot. right. exact H.
Qed.



End StateMoreProofs.

(** ** Further properties of the behaviour selector *)

Module StrategyMoreProofs.
Import Strategy StrategyMore StrategyProofs.

(** Comparisons of binary32 numbers. *)
Lemma lt_excludes_ge (a b : f32) : lt a b = true -> le b a = false.
Proof.
  unfold lt, le, SFltb, SFleb.
  destruct a as [sa|sa| |sa ma ea], b as [sb|sb| |sb mb eb];
    cbn -[Z.compare Pos.compare_cont];
    try discriminate; try reflexivity;
    try (destruct sa; discriminate || reflexivity);
    try (destruct sb; discriminate || reflexivity);
    try (destruct sa, sb; discriminate || reflexivity).
  destruct sa, sb; try discriminate; try reflexivity;
    rewrite (Z.compare_antisym ea eb);
    destruct (ea ?= eb); cbn -[Pos.compare_cont]; try discriminate;
    try reflexivity;
    change (Pos.compare_cont Eq mb ma) with (Pos.compare mb ma);
    change (Pos.compare_cont Eq ma mb) with (Pos.compare ma mb);
    rewrite (Pos.compare_antisym ma mb);
    destruct (ma ?= mb)%positive; cbn; discriminate || reflexivity.
Qed.

Lemma below_fifth_below_three_tenths (a : f32) :
  lt a (lit 2 10) = true -> lt a (lit 3 10) = true.
Proof.
  change (lit 2 10) with (S754_finite false 13421773 (-26)).
  change (lit 3 10) with (S754_finite false 10066330 (-25)).
  unfold lt, SFltb.
  destruct a as [sa|sa| |sa ma ea]; cbn -[Z.compare Pos.compare_cont];
    try discriminate; try reflexivity; try (destruct sa; trivial).
  destruct (Z.compare_spec ea (-26)); destruct (Z.compare_spec ea (-25));
    try discriminate; try reflexivity; lia.
Qed.

(** What the loop of [selectBestBehavior] does, candidate list and enemy
    arbitrary. *)
Lemma selectLoop_find (candidates : list AIBehavior) (e : AIEnemy) :
  selectLoop candidates e =
    match List.find (wins e) candidates with
    | Some b => setBehavior (Some (renewed b)) e
    | None => e
    end.
Proof.
  induction candidates as [|b rest IH]; [reflexivity|].
  cbn [selectLoop List.find]. unfold wins at 1.
  destruct (canExecute b e); [|exact IH].
  destruct (negb (String.eqb (getCurrentBehaviorName e) (getBehaviorName b)));
    [|exact IH].
  destruct b; cbn; try reflexivity; exact IH.
Qed.

(** [selectBestBehavior] installs a new object for the first candidate, in
    the order of the list, that is eligible, is named differently from the
    active behaviour and is not Patrol (for which the function has no
    branch); if there is none, the enemy is left as it is.  In particular it
    never switches to Patrol. *)
Theorem selectBestBehavior_takes_first_winner (c : StrategyAIController) :
  controlledEnemy (selectBestBehavior c)
  = match List.find (wins (controlledEnemy c)) (availableBehaviors c) with
    | Some b => setBehavior (Some (renewed b)) (controlledEnemy c)
    | None => controlledEnemy c
    end
  /\ availableBehaviors (selectBestBehavior c) = availableBehaviors c
  /\ timeSinceLastUpdate (selectBestBehavior c) = timeSinceLastUpdate c.
Proof.
  unfold selectBestBehavior. cbn [controlledEnemy with_enemy].
  split; [apply selectLoop_find|]. split; reflexivity.
Qed.

Lemma eligible_alive (b : AIBehavior) (e : AIEnemy) :
  canExecute b e = true -> 0 < health e.
Proof.
  destruct b; cbn [canExecute]; intros H;
    repeat (apply andb_true_iff in H as [H ?]);
    apply Z.ltb_lt; exact H.
Qed.

Lemma berserk_implies_flee (e : AIEnemy) :
  canExecute BerserkBehavior e = true -> canExecute FleeBehavior e = true.
Proof.
  cbn [canExecute]. intros H. apply andb_true_iff in H as [H1 H2].
  rewrite H1. cbn. apply below_fifth_below_three_tenths, H2.
Qed.

(** How the eligibility predicates relate: only a living enemy is eligible
    for anything; whenever Berserk is eligible so is Flee; Flee and Defend
    are never eligible together, nor are Berserk and Defend, nor Chase and
    Attack. *)
Theorem eligibility_overlaps_and_exclusions
    (e : AIEnemy) (b : AIBehavior) (t1 t2 : f32) :
  (canExecute b e = true -> 0 < health e)
  /\ (canExecute BerserkBehavior e = true -> canExecute FleeBehavior e = true)
  /\ (canExecute FleeBehavior e = true ->
      canExecute (DefendBehavior t1) e = false)
  /\ (canExecute BerserkBehavior e = true ->
      canExecute (DefendBehavior t1) e = false)
  /\ (canExecute ChaseBehavior e = true ->
      canExecute (AttackBehavior t2) e = false).
Proof.
  assert (Hfd : canExecute FleeBehavior e = true ->
                canExecute (DefendBehavior t1) e = false).
  { cbn [canExecute]. intros H. apply andb_true_iff in H as [H1 H2].
    apply lt_excludes_ge in H2. unfold F32.ge. unfold F32.le in H2 at 1.
    rewrite H2.
    rewrite andb_false_r. reflexivity. }
  split; [apply eligible_alive|].
  split; [apply berserk_implies_flee|].
  split; [exact Hfd|].
  split; [intros H; apply Hfd, berserk_implies_flee, H|].
  cbn [canExecute]. intros H. apply andb_true_iff in H as [H1 H2].
  apply (lt_excludes_ge (attackRange e)) in H2. rewrite H2.
  apply andb_false_r.
Qed.

Lemma eligibility_overlaps_and_exclusions_witness :
  canExecute FleeBehavior (controlledEnemy wounded_far) = true
  /\ canExecute (DefendBehavior zero) (controlledEnemy wounded_far) = false
  /\ canExecute (AttackBehavior zero) (controlledEnemy wounded_far) = false.
Proof.
  destruct (eligibility_overlaps_and_exclusions (controlledEnemy wounded_far)
              BerserkBehavior zero zero) as (_ & H2 & _ & H4 & H5).
  split; [apply H2; reflexivity|].
  split; [apply H4; reflexivity | apply H5; reflexivity].
Defined.

(** With the candidates in their registered order, Berserk is reached only
    past Flee, which is eligible whenever Berserk is: so a selection ends
    with Berserk active only if the enemy was fleeing (or berserk already). *)
Theorem berserk_is_selected_only_from_flee (c : StrategyAIController) :
  availableBehaviors c = standardBehaviors ->
  currentBehavior (controlledEnemy (selectBestBehavior c)) = Some BerserkBehavior ->
  getCurrentBehaviorName (controlledEnemy c) = "逃跑"
  \/ currentBehavior (controlledEnemy c) = Some BerserkBehavior.
Proof.
  intros Hlist. unfold selectBestBehavior. cbn [controlledEnemy with_enemy].
  rewrite Hlist, selectLoop_find. unfold standardBehaviors.
  set (e := controlledEnemy c).
  cbn [List.find].
  replace (wins e (PatrolBehavior defaultWaypoints)) with false
    by (unfold wins; cbn [switchable]; rewrite andb_false_r; reflexivity).
  destruct (wins e ChaseBehavior); [discriminate|].
  destruct (wins e (AttackBehavior zero)); [discriminate|].
  destruct (wins e FleeBehavior) eqn:Hf; [discriminate|].
  destruct (wins e (DefendBehavior zero)); [discriminate|].
  destruct (wins e BerserkBehavior) eqn:Hb; [|intros H; right; exact H].
  intros _. left.
  unfold wins in Hf, Hb. cbn [switchable getBehaviorName] in Hf, Hb.
  rewrite andb_true_r in Hf, Hb.
  apply andb_true_iff in Hb as [Hb _].
  rewrite (berserk_implies_flee e Hb) in Hf. cbn [andb] in Hf.
  apply negb_false_iff, String.eqb_eq in Hf. exact Hf.
Qed.

Lemma berserk_is_selected_only_from_flee_witness :
  getCurrentBehaviorName (controlledEnemy fleeing) = "逃跑"
  \/ currentBehavior (controlledEnemy fleeing) = Some BerserkBehavior.
Proof.
  apply (berserk_is_selected_only_from_flee fleeing); reflexivity.
Defined.

Lemma canExecute_dead (b : AIBehavior) (e : AIEnemy) :
  health e <= 0 -> canExecute b e = false.
Proof.
  intros H. destruct (canExecute b e) eqn:Hc; [|reflexivity].
  apply eligible_alive in Hc. lia.
Qed.

Lemma selectLoop_dead (candidates : list AIBehavior) (e : AIEnemy) :
  health e <= 0 -> selectLoop candidates e = e.
Proof.
  intros H. induction candidates as [|b rest IH]; [reflexivity|].
  cbn [selectLoop]. rewrite (canExecute_dead b e H). exact IH.
Qed.

(** An enemy with no health left is left alone: [update] selects nothing and
    executes nothing for it, and does not touch the patrol counter; only the
    controller's accumulator moves. *)
Theorem dead_enemy_is_left_alone
    (deltaTime : f32) (cw : Z) (c : StrategyAIController) :
  health (controlledEnemy c) <= 0 ->
  update deltaTime (cw, c)
  = (cw,
     with_time
       (if ge (add (timeSinceLastUpdate c) deltaTime) behaviorUpdateInterval
        then zero else add (timeSinceLastUpdate c) deltaTime) c).
Proof.
  intros Hdead. rewrite update_unfold.
  assert (Hre : reevaluate deltaTime c
                = with_time
                    (if ge (add (timeSinceLastUpdate c) deltaTime)
                          behaviorUpdateInterval
                     then zero else add (timeSinceLastUpdate c) deltaTime) c).
  { unfold reevaluate. cbn [timeSinceLastUpdate with_time].
    destruct (ge _ _); [|reflexivity].
    unfold selectBestBehavior.
    cbn [controlledEnemy with_time availableBehaviors].
    rewrite selectLoop_dead by exact Hdead. destruct c; reflexivity. }
  rewrite Hre. unfold AIEnemy_update. cbn [snd controlledEnemy with_time].
  destruct (currentBehavior (controlledEnemy c)) as [b|].
  - rewrite (canExecute_dead b _ Hdead). destruct c; reflexivity.
  - destruct c; reflexivity.
Qed.

Lemma dead_enemy_is_left_alone_witness :
  update (of_int 1) (3, with_enemy (takeDamage 100 (controlledEnemy wounded_far))
                         wounded_far)
  = (3, with_time zero
          (with_enemy (takeDamage 100 (controlledEnemy wounded_far)) wounded_far)).
Proof.
  rewrite (dead_enemy_is_left_alone (of_int 1) 3
             (with_enemy (takeDamage 100 (controlledEnemy wounded_far))
                wounded_far)); [reflexivity | cbn; lia].
Defined.

(** After every [update] the accumulator is below the re-evaluation
    interval (or NaN): it has either just been reset or not yet reached
    it. *)
Theorem accumulator_ends_below_interval
    (deltaTime : f32) (cw : Z) (c : StrategyAIController) :
  ge (timeSinceLastUpdate (snd (update deltaTime (cw, c))))
     behaviorUpdateInterval = false.
Proof.
  rewrite update_unfold. cbn [snd timeSinceLastUpdate with_enemy].
  unfold reevaluate. cbn [timeSinceLastUpdate with_time].
  destruct (ge (add (timeSinceLastUpdate c) deltaTime) behaviorUpdateInterval)
    eqn:Hdue.
  - reflexivity.
  - cbn [timeSinceLastUpdate with_time]. exact Hdue.
Qed.

(** [forceBehavior] with one of the six behaviour names installs a new
    behaviour of that name, its timers at 0, and changes nothing else; with
    any other name it does nothing. *)
Theorem forceBehavior_installs_the_named_behavior
    (behaviorName : string) (c : StrategyAIController) :
  (known behaviorName = true ->
     exists b,
       forceBehavior behaviorName c
       = with_enemy (setBehavior (Some b) (controlledEnemy c)) c
       /\ getBehaviorName b = behaviorName /\ fresh b)
  /\ (known behaviorName = false -> forceBehavior behaviorName c = c).
Proof.
  unfold known, forceBehavior.
  repeat (match goal with
          | |- context [String.eqb behaviorName ?n] =>
              destruct (String.eqb_spec behaviorName n) as [->|?]
          end;
          [split; [intros _|discriminate];
           eexists; split; [reflexivity|split; [reflexivity|]];
           unfold fresh; cbn; repeat constructor|]).
  cbn. split; [discriminate|reflexivity].
Qed.

Lemma forceBehavior_installs_the_named_behavior_witness :
  (exists b,
     forceBehavior "攻击" grunt_ai
     = with_enemy (setBehavior (Some b) (controlledEnemy grunt_ai)) grunt_ai
     /\ getBehaviorName b = "攻击" /\ fresh b)
  /\ forceBehavior "idle" grunt_ai = grunt_ai.
Proof.
  split.
  - apply (forceBehavior_installs_the_named_behavior "攻击" grunt_ai).
    reflexivity.
  - apply (forceBehavior_installs_the_named_behavior "idle" grunt_ai).
    reflexivity.
Defined.

(** Projections of the enemy that moving does not touch. *)
Lemma moveTowards_frame (tX tY dt : f32) (e : AIEnemy) :
  health (moveTowards tX tY dt e) = health e
  /\ maxHealth (moveTowards tX tY dt e) = maxHealth e
  /\ speed (moveTowards tX tY dt e) = speed e
  /\ hasTarget (moveTowards tX tY dt e) = hasTarget e.
Proof. unfold moveTowards. destruct (F32.gt _ _); repeat split. Qed.

Lemma flee_frame (fX fY dt : f32) (e : AIEnemy) :
  health (flee fX fY dt e) = health e
  /\ maxHealth (flee fX fY dt e) = maxHealth e
  /\ speed (flee fX fY dt e) = speed e
  /\ hasTarget (flee fX fY dt e) = hasTarget e.
Proof. unfold flee. destruct (F32.gt _ _); repeat split. Qed.

Lemma patrol_frame (waypoints : list (f32 * f32)) (dt : f32) (cw : Z) (e : AIEnemy) :
  health (snd (patrol waypoints dt (cw, e))) = health e
  /\ maxHealth (snd (patrol waypoints dt (cw, e))) = maxHealth e
  /\ hasTarget (snd (patrol waypoints dt (cw, e))) = hasTarget e
  /\ currentBehavior (snd (patrol waypoints dt (cw, e))) = currentBehavior e
  /\ (0 <= cw < size_max ->
      0 <= fst (patrol waypoints dt (cw, e)) < size_max
      /\ (fst (patrol waypoints dt (cw, e)) = cw
          \/ fst (patrol waypoints dt (cw, e)) = (cw + 1) mod size_max)).
Proof.
  assert (Hmod : 0 <= (cw + 1) mod size_max < size_max)
    by (apply Z.mod_pos_bound; unfold size_max; lia).
  unfold patrol. destruct waypoints as [|w0 ws]; [cbn; tauto|].
  destruct (_ !! _) as [target|]; [|cbn; tauto].
  pose proof (moveTowards_frame (fst target) (snd target) dt e)
    as (H1 & H2 & _ & H4).
  pose proof (moveTowards_behavior (fst target) (snd target) dt e) as H5.
  cbv zeta. destruct (F32.lt _ _); cbn [fst snd]; tauto.
Qed.

Lemma execute_frame (b : AIBehavior) (dt : f32) (cw : Z) (e : AIEnemy) :
  health (snd (execute b dt (cw, e))) = health e
  /\ maxHealth (snd (execute b dt (cw, e))) = maxHealth e
  /\ hasTarget (snd (execute b dt (cw, e))) = hasTarget e
  /\ (0 <= cw < size_max ->
      0 <= fst (execute b dt (cw, e)) < size_max
      /\ (fst (execute b dt (cw, e)) = cw
          \/ fst (execute b dt (cw, e)) = (cw + 1) mod size_max)).
Proof.
  destruct b; unfold execute.
  - pose proof (patrol_frame waypoints dt cw e). tauto.
  - pose proof (moveTowards_frame (targetX e) (targetY e) dt e).
    destruct (hasTarget e) eqn:?; cbn [fst snd]; tauto.
  - destruct (F32.ge _ _); cbn; tauto.
  - pose proof (flee_frame (targetX e) (targetY e) dt e).
    destruct (hasTarget e) eqn:?; cbn [fst snd]; tauto.
  - destruct (F32.ge _ _); cbn; tauto.
  - set (e1 := setSpeed (mul (speed e) (lit 3 2)) e).
    destruct (moveTowards_frame (targetX e1) (targetY e1) dt e1)
      as (Hh & Hm & _ & Ht).
    change (health e1) with (health e) in Hh.
    change (maxHealth e1) with (maxHealth e) in Hm.
    change (hasTarget e1) with (hasTarget e) in *.
    destruct (hasTarget e) eqn:Htgt; [destruct (F32.le _ _)|];
      unfold attack; cbn [fst snd]; rewrite ?Hh, ?Hm, ?Ht;
      repeat split; try reflexivity; try tauto; exact Htgt.
  - pose proof (patrol_frame
                  [(of_int 0, of_int 0); (of_int 50, of_int 0);
                   (of_int 50, of_int 50); (of_int 0, of_int 50)]
                  (mul dt (lit 1 2)) cw e). tauto.
Qed.

Lemma selectLoop_frame (candidates : list AIBehavior) (e : AIEnemy) :
  setBehavior None (selectLoop candidates e) = setBehavior None e.
Proof.
  rewrite selectLoop_find. destruct (List.find _ _); reflexivity.
Qed.

Lemma reevaluate_frame (dt : f32) (c : StrategyAIController) :
  setBehavior None (controlledEnemy (reevaluate dt c))
  = setBehavior None (controlledEnemy c)
  /\ availableBehaviors (reevaluate dt c) = availableBehaviors c.
Proof.
  unfold reevaluate. cbn [timeSinceLastUpdate with_time].
  destruct (F32.ge _ _); [|split; reflexivity].
  unfold selectBestBehavior.
  cbn [controlledEnemy with_time with_enemy availableBehaviors].
  split; [apply selectLoop_frame|reflexivity].
Qed.

Lemma update_frame (dt : f32) (cw : Z) (c : StrategyAIController) :
  health (controlledEnemy (snd (update dt (cw, c)))) = health (controlledEnemy c)
  /\ maxHealth (controlledEnemy (snd (update dt (cw, c))))
     = maxHealth (controlledEnemy c)
  /\ hasTarget (controlledEnemy (snd (update dt (cw, c))))
     = hasTarget (controlledEnemy c)
  /\ availableBehaviors (snd (update dt (cw, c))) = availableBehaviors c
  /\ (0 <= cw < size_max ->
      0 <= fst (update dt (cw, c)) < size_max
      /\ (fst (update dt (cw, c)) = cw
          \/ fst (update dt (cw, c)) = (cw + 1) mod size_max)).
Proof.
  rewrite update_unfold. cbn [fst snd controlledEnemy with_enemy availableBehaviors].
  destruct (reevaluate_frame dt c) as [He Hl].
  assert (Hh : health (controlledEnemy (reevaluate dt c))
               = health (controlledEnemy c))
    by exact (f_equal health He).
  assert (Hm : maxHealth (controlledEnemy (reevaluate dt c))
               = maxHealth (controlledEnemy c))
    by exact (f_equal maxHealth He).
  assert (Ht : hasTarget (controlledEnemy (reevaluate dt c))
               = hasTarget (controlledEnemy c))
    by exact (f_equal hasTarget He).
  rewrite <- Hh, <- Hm, <- Ht, Hl.
  unfold AIEnemy_update. cbn [snd].
  destruct (currentBehavior (controlledEnemy (reevaluate dt c))) as [b|];
    [|cbn [fst snd]; intuition lia].
  destruct (canExecute b _); [|cbn [fst snd]; intuition lia].
  pose proof (execute_frame b dt cw (controlledEnemy (reevaluate dt c))).
  tauto.
Qed.

(** The patrol counter under [update]: it stays a [size_t] value and moves
    by at most one step per call, whatever behaviour is active. *)
Theorem patrol_counter_advances_by_at_most_one
    (deltaTime : f32) (cw : Z) (c : StrategyAIController) :
  0 <= cw < size_max ->
  0 <= fst (update deltaTime (cw, c)) < size_max
  /\ (fst (update deltaTime (cw, c)) = cw
      \/ fst (update deltaTime (cw, c)) = (cw + 1) mod size_max).
Proof.
  intros H. apply (update_frame deltaTime cw c). exact H.
Qed.

Lemma patrol_counter_advances_by_at_most_one_witness :
  0 <= fst (update (lit 16 1000) (0, grunt_ai)) < size_max
  /\ (fst (update (lit 16 1000) (0, grunt_ai)) = 0
      \/ fst (update (lit 16 1000) (0, grunt_ai)) = (0 + 1) mod size_max).
Proof.
  apply (patrol_counter_advances_by_at_most_one (lit 16 1000) 0 grunt_ai).
  unfold size_max. lia.
Defined.

(** Damage and healing keep the health between 0 and its cap: damage (not
    negative) only lowers it, down to exactly 0 once it reaches the health
    left, two hits add up, and healing only raises it, never past the cap.
    The bounds on the arguments are those under which the [int] arithmetic
    of the source cannot overflow. *)
Theorem damage_and_healing_stay_in_range
    (e : AIEnemy) (damage damage2 amount : Z) :
  health_ok e ->
  maxHealth e <= int_max ->
  0 <= damage -> 0 <= damage2 -> damage + damage2 <= int_max ->
  0 <= amount -> health e + amount <= int_max ->
  health_ok (takeDamage damage e)
  /\ health (takeDamage damage e) <= health e
  /\ (health e <= damage -> health (takeDamage damage e) = 0)
  /\ takeDamage damage2 (takeDamage damage e) = takeDamage (damage + damage2) e
  /\ health_ok (heal amount e)
  /\ health e <= health (heal amount e)
  /\ (maxHealth e <= health e + amount -> health (heal amount e) = maxHealth e).
Proof.
  unfold health_ok. intros [H0 H1] Hcap Hd Hd2 Hsum Ha Hfit.
  unfold takeDamage, heal, setHealth; cbn [health maxHealth].
  repeat split; try lia.
  f_equal. lia.
Qed.

Lemma damage_and_healing_stay_in_range_witness :
  health (takeDamage 85 (controlledEnemy grunt_ai)) = 15
  /\ takeDamage 20 (takeDamage 85 (controlledEnemy grunt_ai))
     = takeDamage (85 + 20) (controlledEnemy grunt_ai)
  /\ health (heal 7 (controlledEnemy grunt_ai)) = 100.
Proof.
  destruct (damage_and_healing_stay_in_range (controlledEnemy grunt_ai) 85 20 7)
    as (_ & _ & _ & H4 & _ & _ & H7);
    try (unfold health_ok, int_max; cbn; lia).
  split; [reflexivity|]. split; [exact H4|].
  rewrite H7; [reflexivity | cbn; lia].
Defined.

(** One call of Berserk's [execute]. *)
Lemma execute_current_berserk (dt : f32) (cw : Z) (e : AIEnemy) :
  currentBehavior e = Some BerserkBehavior ->
  fst (execute_current dt (cw, e)) = cw
  /\ currentBehavior (snd (execute_current dt (cw, e))) = Some BerserkBehavior
  /\ speed (snd (execute_current dt (cw, e))) = mul (speed e) (lit 3 2).
Proof.
  intros Hcur. unfold execute_current. cbn [snd]. rewrite Hcur.
  unfold execute, attack.
  set (e1 := setSpeed (mul (speed e) (lit 3 2)) e).
  destruct (moveTowards_frame (targetX e1) (targetY e1) dt e1)
    as (_ & _ & Hs & _).
  pose proof (moveTowards_behavior (targetX e1) (targetY e1) dt e1) as Hb.
  change (speed e1) with (mul (speed e) (lit 3 2)) in Hs.
  change (currentBehavior e1) with (currentBehavior e) in Hb.
  rewrite Hcur in Hb.
  destruct (hasTarget e1); [destruct (F32.le _ _)|]; cbn [fst snd];
    repeat split; try assumption; exact Hcur.
Qed.

Lemma grown_step (n : nat) (s : f32) :
  grown n (mul s (lit 3 2)) = grown (S n) s.
Proof.
  unfold grown. symmetry.
  exact (Nat.iter_succ_r n (fun v => mul v (lit 3 2)) s).
Qed.

(** Every [execute] call of Berserk multiplies the enemy's speed by 1.5,
    with or without a target, so [n] calls leave it multiplied [n] times
    over; nothing in Berserk restores it, and it leaves the patrol counter
    alone. *)
Theorem berserk_speeds_up_on_every_call
    (dts : list f32) (cw : Z) (e : AIEnemy) :
  currentBehavior e = Some BerserkBehavior ->
  fst (run_execute dts (cw, e)) = cw
  /\ currentBehavior (snd (run_execute dts (cw, e))) = Some BerserkBehavior
  /\ speed (snd (run_execute dts (cw, e))) = grown (length dts) (speed e).
Proof.
  revert e. induction dts as [|dt rest IH]; intros e Hcur.
  - cbn. repeat split. exact Hcur.
  - cbn [run_execute length].
    destruct (execute_current_berserk dt cw e Hcur) as (Hcw & Hb & Hs).
    destruct (execute_current dt (cw, e)) as [cw1 e1].
    cbn [fst snd] in Hcw, Hb, Hs. subst cw1.
    destruct (IH e1 Hb) as (H1 & H2 & H3).
    rewrite H3, Hs, grown_step. repeat split; assumption.
Qed.

Lemma berserk_speeds_up_on_every_call_witness :
  speed (snd (run_execute [lit 16 1000; lit 16 1000]
                (0, controlledEnemy (forceBehavior "狂暴" grunt_ai))))
  = lit 225 2.
Proof.
  destruct (berserk_speeds_up_on_every_call [lit 16 1000; lit 16 1000] 0
              (controlledEnemy (forceBehavior "狂暴" grunt_ai)) eq_refl)
    as (_ & _ & H).
  rewrite H. vm_compute. reflexivity.
Defined.

(** Without a target, behaviours other than the patrolling ones do not
    move the enemy. *)
Lemma execute_stays_put (b : AIBehavior) (dt : f32) (cw : Z) (e : AIEnemy) :
  hasTarget e = false ->
  patrols (Some b) = false ->
  x (snd (execute b dt (cw, e))) = x e /\ y (snd (execute b dt (cw, e))) = y e.
Proof.
  intros Ht Haway.
  destruct b; try discriminate Haway; unfold execute;
    cbn [hasTarget setSpeed]; rewrite ?Ht; cbn [fst snd];
    try (split; reflexivity);
    destruct (F32.ge _ _); split; reflexivity.
Qed.

Lemma update_stays_put (dt : f32) (cw : Z) (c : StrategyAIController) :
  hasTarget (controlledEnemy c) = false ->
  patrols (currentBehavior (controlledEnemy c)) = false ->
  x (controlledEnemy (snd (update dt (cw, c)))) = x (controlledEnemy c)
  /\ y (controlledEnemy (snd (update dt (cw, c)))) = y (controlledEnemy c).
Proof.
  intros Ht Haway. rewrite update_unfold. cbn [snd controlledEnemy with_enemy].
  destruct (reevaluate_frame dt c) as [He _].
  assert (Hx : x (controlledEnemy (reevaluate dt c)) = x (controlledEnemy c))
    by exact (f_equal x He).
  assert (Hy : y (controlledEnemy (reevaluate dt c)) = y (controlledEnemy c))
    by exact (f_equal y He).
  assert (Ht' : hasTarget (controlledEnemy (reevaluate dt c)) = false)
    by (rewrite <- Ht; exact (f_equal hasTarget He)).
  assert (Hre : patrols (currentBehavior (controlledEnemy (reevaluate dt c)))
                = false).
  { unfold reevaluate. cbn [timeSinceLastUpdate with_time].
    destruct (F32.ge _ _); [|exact Haway].
    cbn [controlledEnemy with_time selectBestBehavior with_enemy availableBehaviors].
    apply selectLoop_away, Haway. }
  rewrite <- Hx, <- Hy. unfold AIEnemy_update. cbn [snd].
  destruct (currentBehavior (controlledEnemy (reevaluate dt c))) as [b|];
    [|split; reflexivity].
  destruct (canExecute b _); [|split; reflexivity].
  apply execute_stays_put; assumption.
Qed.

(** An enemy that has no target and is not patrolling stays where it is,
    however many [update] calls are made and whatever they select: chasing,
    fleeing and the berserk charge all need a target to move. *)
Theorem enemy_without_target_stays_put
    (dts : list f32) (cw : Z) (c : StrategyAIController) :
  hasTarget (controlledEnemy c) = false ->
  patrols (currentBehavior (controlledEnemy c)) = false ->
  x (controlledEnemy (snd (run_updates dts (cw, c)))) = x (controlledEnemy c)
  /\ y (controlledEnemy (snd (run_updates dts (cw, c)))) = y (controlledEnemy c).
Proof.
  revert c. induction dts as [|dt rest IH]; intros c Ht Haway.
  - split; reflexivity.
  - cbn [run_updates].
    destruct (update_stays_put dt cw c Ht Haway) as [Hx Hy].
    destruct (update_away dt cw c Haway) as [Hcw Haway'].
    destruct (update_frame dt cw c) as (_ & _ & Ht' & _).
    destruct (update dt (cw, c)) as [cw1 c1].
    cbn [fst snd] in *. subst cw1. rewrite Ht in Ht'.
    destruct (IH c1 Ht' Haway') as [IHx IHy].
    rewrite IHx, IHy. split; assumption.
Qed.

Lemma enemy_without_target_stays_put_witness :
  x (controlledEnemy (snd (run_updates [of_int 1; of_int 1] (0, fleeing))))
  = x (controlledEnemy fleeing)
  /\ y (controlledEnemy (snd (run_updates [of_int 1; of_int 1] (0, fleeing))))
     = y (controlledEnemy fleeing).
Proof.
  apply (enemy_without_target_stays_put [of_int 1; of_int 1] 0 fleeing);
    reflexivity.
Defined.

Lemma getAliveEnemyCount_bounds (cs : list StrategyAIController) :
  0 <= getAliveEnemyCount cs <= Z.of_nat (length cs).
Proof.
  induction cs as [|c rest IH]; cbn [getAliveEnemyCount length]; [lia|].
  destruct (0 <? health (controlledEnemy c)); lia.
Qed.


(** [damageEnemies] with damage that is not negative can only lower the
    number of living enemies, which never exceeds the number of enemies;
    damage at least as large as every enemy's health leaves none alive. *)
Theorem damageEnemies_only_kills
    (damage : Z) (aiControllers : list StrategyAIController) :
  0 <= damage ->
  length (damageEnemies damage aiControllers) = length aiControllers
  /\ getAliveEnemyCount (damageEnemies damage aiControllers)
     <= getAliveEnemyCount aiControllers
     <= Z.of_nat (length aiControllers)
  /\ ((forall c, In c aiControllers -> health (controlledEnemy c) <= damage) ->
      getAliveEnemyCount (damageEnemies damage aiControllers) = 0).
Proof.
  intros Hd. unfold damageEnemies.
  split; [apply length_map|]. split; [split|].
  - induction aiControllers as [|c rest IH]; cbn [map getAliveEnemyCount]; [lia|].
    cbn [controlledEnemy with_enemy takeDamage setHealth health].
    destruct (0 <? Z.max 0 (health (controlledEnemy c) - damage)) eqn:E1;
      destruct (0 <? health (controlledEnemy c)) eqn:E2; lia.
  - apply getAliveEnemyCount_bounds.
  - induction aiControllers as [|c rest IH]; intros Hall;
      cbn [map getAliveEnemyCount]; [reflexivity|].
    cbn [controlledEnemy with_enemy takeDamage setHealth health].
    assert (Hc : health (controlledEnemy c) <= damage)
      by (apply Hall; left; reflexivity).
    replace (0 <? Z.max 0 (health (controlledEnemy c) - damage)) with false
      by (symmetry; apply Z.ltb_ge; lia).
    apply IH. intros c' Hin. apply Hall. right. exact Hin.
Qed.

Lemma damageEnemies_only_kills_witness :
  getAliveEnemyCount (damageEnemies 100 [grunt_ai; wounded_far]) = 0
  /\ getAliveEnemyCount (damageEnemies 40 [grunt_ai; wounded_far])
     <= getAliveEnemyCount [grunt_ai; wounded_far].
Proof.
  destruct (damageEnemies_only_kills 100 [grunt_ai; wounded_far])
    as (_ & _ & H3); [lia|].
  destruct (damageEnemies_only_kills 40 [grunt_ai; wounded_far])
    as (_ & [H2 _] & _); [lia|].
  split; [|exact H2].
  apply H3. intros c [<-|[<-|[]]]; cbn; lia.
Defined.

(** [setPlayerPosition] gives every enemy the player as its target and
    leaves its health alone; an enemy whose target has been cleared
    reports the distance -1 and is eligible for neither Chase nor Attack,
    whatever its attack range. *)
Theorem targets_are_set_for_all_and_cleared_for_good
    (pX pY : f32) (aiControllers : list StrategyAIController)
    (e : AIEnemy) (t : f32) :
  length (setPlayerPosition pX pY aiControllers) = length aiControllers
  /\ Forall (fun c => hasTarget (controlledEnemy c) = true
                      /\ targetX (controlledEnemy c) = pX
                      /\ targetY (controlledEnemy c) = pY)
            (setPlayerPosition pX pY aiControllers)
  /\ map (fun c => health (controlledEnemy c))
         (setPlayerPosition pX pY aiControllers)
     = map (fun c => health (controlledEnemy c)) aiControllers
  /\ getDistanceToTarget (clearTarget e) = of_int (-1)
  /\ canExecute ChaseBehavior (clearTarget e) = false
  /\ canExecute (AttackBehavior t) (clearTarget e) = false.
Proof.
  unfold setPlayerPosition.
  split; [apply length_map|]. split; [|split].
  - induction aiControllers as [|c rest IH]; cbn [map]; constructor;
      [cbn; repeat split | exact IH].
  - induction aiControllers as [|c rest IH]; cbn [map]; [reflexivity|].
    f_equal. exact IH.
  - unfold getDistanceToTarget, canExecute, clearTarget; cbn [hasTarget health].
    repeat split; rewrite andb_false_r; reflexivity.
Qed.

End StrategyMoreProofs.
